(** * FinCalc: calculation schemas and the financial engine bridge

    A shallow embedding of
      - [app/schemas/calculations.py]  (request validation, Pydantic models),
      - [app/operations/financial.py]  (locating and invoking the F# engine),
    and of the arithmetic evaluator's [divide], with the properties the
    specification states about them.

    Python values are embedded as the inductive [pyval]; floats are IEEE 754
    binary64 values (Rocq's primitive floats), so that [x == 0] is the
    comparison Python performs.  Strings are sequences of code points below
    256; the two string methods the code calls ([str.lower], [str.strip]) are
    written out on that range. *)

From Stdlib Require Import ZArith List String Ascii Bool Lia Floats.
Import ListNotations.

Local Open Scope string_scope.
Local Open Scope list_scope.
Local Open Scope nat_scope.
Set Warnings "-register-all".

(** ** Python values and builtins *)

Module Py.

(** The values a request body or a call site can hand to the code. *)
Inductive pyval : Type :=
| PyNone
| PyBool (b : bool)
| PyInt (z : Z)
| PyFloat (f : float)
| PyStr (s : string)
| PyList (l : list pyval)
| PyDict (kvs : list (string * pyval)).

(** Exceptions the modelled code can meet. *)
Inductive exn : Type :=
| TypeError
| ValueError (msg : string)
| OSError
| CalledProcessError (returncode : Z)
| UnicodeDecodeError.

(** A call either returns or raises. *)
Inductive outcome (A E : Type) : Type :=
| Returned (a : A)
| Raised (e : E).
Arguments Returned {A E} a.
Arguments Raised {A E} e.

(** [c.lower()] on one code point: A-Z and the Latin-1 capitals
    (U+00C0..U+00DE without the multiplication sign) move up by 32. *)
Definition lower_char (c : ascii) : ascii :=
  let n := nat_of_ascii c in
  if ((65 <=? n) && (n <=? 90)) || ((192 <=? n) && (n <=? 222) && negb (n =? 215))
  then ascii_of_nat (n + 32)
  else c.

(** [s.lower()] *)
Fixpoint lower (s : string) : string :=
  match s with
  | EmptyString => EmptyString
  | String c r => String (lower_char c) (lower r)
  end.

(** [c.isspace()]: TAB..CR, FS..US, SPACE, NEL, NBSP. *)
Definition isspace (c : ascii) : bool :=
  let n := nat_of_ascii c in
  ((9 <=? n) && (n <=? 13)) || ((28 <=? n) && (n <=? 32)) || (n =? 133) || (n =? 160).

(** [s.lstrip()] *)
Fixpoint lstrip (s : string) : string :=
  match s with
  | EmptyString => EmptyString
  | String c r => if isspace c then lstrip r else s
  end.

(** [s.rstrip()] *)
Fixpoint rstrip (s : string) : string :=
  match s with
  | EmptyString => EmptyString
  | String c r =>
      match rstrip r with
      | EmptyString => if isspace c then EmptyString else String c EmptyString
      | r' => String c r'
      end
  end.

(** [s.strip()] *)
Definition strip (s : string) : string := rstrip (lstrip s).

(** [sep.join(parts)] *)
Definition join (sep : string) (parts : list string) : string :=
  String.concat sep parts.

(** [x == 0] for a float [x]: true for both zeros, false for NaN. *)
Definition is_zero (x : float) : bool := PrimFloat.eqb x 0%float.

(** [float(z)] for an int of moderate size: round to nearest, ties to even. *)
Definition float_of_int (z : Z) : float :=
  SF2Prim (SpecFloat.binary_normalize FloatOps.prec FloatOps.emax z 0 false).

(** Every character of the string is whitespace. *)
Fixpoint blank (s : string) : bool :=
  match s with
  | EmptyString => true
  | String c r => isspace c && blank r
  end.

(** The string neither starts nor ends with whitespace. *)
Definition trimmed (s : string) : Prop := lstrip s = s /\ rstrip s = s.

(** [iter(v)]: the values a loop over [v] sees, a string giving its
    characters and a dict its keys; [None] when [v] is not iterable. *)
Definition iterate (v : pyval) : option (list pyval) :=
  match v with
  | PyList l => Some l
  | PyStr s => Some (map (fun c => PyStr (String c EmptyString)) (list_ascii_of_string s))
  | PyDict kvs => Some (map (fun kv => PyStr (fst kv)) kvs)
  | _ => None
  end.

(** [',' not in s] *)
Fixpoint comma_free (s : string) : bool :=
  match s with
  | EmptyString => true
  | String c r => negb (Ascii.eqb c ",") && comma_free r
  end.

End Py.

Import Py.

(** ** app/schemas/calculations.py *)

Module Schemas.

(** [class CalculationType(str, Enum)] *)
Inductive CalculationType : Type :=
| ADDITION
| SUBTRACTION
| MULTIPLICATION
| DIVISION.

(** [e.value] *)
Definition value (e : CalculationType) : string :=
  match e with
  | ADDITION => "addition"
  | SUBTRACTION => "subtraction"
  | MULTIPLICATION => "multiplication"
  | DIVISION => "division"
  end.

(** The members, in definition order. *)
Definition members : list CalculationType :=
  [ADDITION; SUBTRACTION; MULTIPLICATION; DIVISION].

Definition CalculationType_eqb (a b : CalculationType) : bool :=
  match a, b with
  | ADDITION, ADDITION | SUBTRACTION, SUBTRACTION
  | MULTIPLICATION, MULTIPLICATION | DIVISION, DIVISION => true
  | _, _ => false
  end.

(** *** What Pydantic reports

    A [ValidationError] carries one entry per failure: where it happened and
    what it was.  Entries of different fields are collected into one error;
    model validators run only when every field validated. *)

Inductive loc : Type :=
| LocType                     (* ("type",) *)
| LocInputs                   (* ("inputs",) *)
| LocItem (i : nat)           (* ("inputs", i) *)
| LocModel.                   (* () : raised by a model validator *)

Inductive err_kind : Type :=
| Missing                              (* "Field required" *)
| ValueErr (msg : string)              (* "Value error, <msg>" *)
| EnumErr                              (* "Input should be 'addition', ..." *)
| ListTypeErr                          (* "Input should be a valid list" *)
| FloatErr                             (* "Input should be a valid number" *)
| TooShort (min_length actual : nat).  (* "List should have at least 2 items" *)

Definition error_details : Type := loc * err_kind.
Definition ValidationError : Type := list error_details.

(** Messages of the [ValueError]s the validators raise. *)
Definition sorted_allowed : list string :=
  ["addition"; "division"; "multiplication"; "subtraction"].
Definition msg_type : string := String.append "Type must be one of: " (join ", " sorted_allowed).
Definition msg_list : string := "Input should be a valid list".
Definition msg_two : string := "At least two numbers are required for calculation".
Definition msg_zero : string := "Cannot divide by zero".

(** [allowed = {e.value for e in CalculationType}] *)
Definition allowed : list string := map value members.

(** [CalculationBase.validate_type], a "before" validator of field [type]. *)
Definition validate_type (v : pyval) : outcome pyval string :=
  match v with
  | PyStr s =>
      if existsb (String.eqb (lower s)) allowed
      then Returned (PyStr (lower s))
      else Raised msg_type
  | _ => Raised msg_type
  end.

(** [CalculationBase.check_inputs_is_list], a "before" validator of [inputs]. *)
Definition check_inputs_is_list (v : pyval) : outcome pyval string :=
  match v with
  | PyList _ => Returned v
  | _ => Raised msg_list
  end.

(** Pydantic's validation of a value against the enum: a string equal to the
    value of a member is that member. *)
Definition enum_validate (v : pyval) : option CalculationType :=
  match v with
  | PyStr s => find (fun e => String.eqb (value e) s) members
  | _ => None
  end.

Section Core.

(** Pydantic's validation of one value against [float] (lax mode); [None]
    when the value is not accepted as a number. *)
Variable float_validator : pyval -> option float.

(** The items of a list against [float]: every failing item is reported
    with its index. *)
Fixpoint validate_items (i : nat) (l : list pyval) : ValidationError * list float :=
  match l with
  | [] => ([], [])
  | v :: r =>
      let (es, xs) := validate_items (S i) r in
      match float_validator v with
      | Some x => (es, x :: xs)
      | None => ((LocItem i, FloatErr) :: es, xs)
      end
  end.

(** [List[float]] with [min_items]: the items first, then the length. *)
Definition validate_list (min_items : nat) (v : pyval)
  : outcome (list float) ValidationError :=
  match v with
  | PyList l =>
      match validate_items 0 l with
      | ([], xs) =>
          if List.length xs <? min_items
          then Raised [(LocInputs, TooShort min_items (List.length xs))]
          else Returned xs
      | (es, _) => Raised es
      end
  | _ => Raised [(LocInputs, ListTypeErr)]
  end.

(** [class CalculationBase(BaseModel)] *)
Record CalculationBase : Type := mkBase {
  type : CalculationType;
  inputs : list float
}.

(** Field [type: CalculationType = Field(...)] with its "before" validator. *)
Definition field_type (arg : option pyval) : outcome CalculationType ValidationError :=
  match arg with
  | None => Raised [(LocType, Missing)]
  | Some v =>
      match validate_type v with
      | Raised msg => Raised [(LocType, ValueErr msg)]
      | Returned v' =>
          match enum_validate v' with
          | Some t => Returned t
          | None => Raised [(LocType, EnumErr)]
          end
      end
  end.

(** Field [inputs: List[float] = Field(..., min_items=2)] with its "before"
    validator. *)
Definition field_inputs (arg : option pyval) : outcome (list float) ValidationError :=
  match arg with
  | None => Raised [(LocInputs, Missing)]
  | Some v =>
      match check_inputs_is_list v with
      | Raised msg => Raised [(LocInputs, ValueErr msg)]
      | Returned v' => validate_list 2 v'
      end
  end.

(** [CalculationBase.validate_inputs], the model validator (mode "after"). *)
Definition validate_inputs (self : CalculationBase) : outcome CalculationBase string :=
  if List.length (inputs self) <? 2 then Raised msg_two
  else if CalculationType_eqb (type self) DIVISION then
    if existsb is_zero (tl (inputs self)) then Raised msg_zero
    else Returned self
  else Returned self.

(** The errors a field contributes. *)
Definition errors_of {A : Type} (r : outcome A ValidationError) : ValidationError :=
  match r with
  | Returned _ => []
  | Raised es => es
  end.

(** [CalculationBase(type=..., inputs=...)]; an argument that is not passed
    is [None]. *)
Definition CalculationBase_new (kw_type kw_inputs : option pyval)
  : outcome CalculationBase ValidationError :=
  let r_type := field_type kw_type in
  let r_inputs := field_inputs kw_inputs in
  match r_type, r_inputs with
  | Returned t, Returned xs =>
      match validate_inputs (mkBase t xs) with
      | Returned self => Returned self
      | Raised msg => Raised [(LocModel, ValueErr msg)]
      end
  | _, _ => Raised (errors_of r_type ++ errors_of r_inputs)
  end.

(** [class CalculationUpdate(BaseModel)]: both fields optional. *)
Record CalculationUpdate : Type := mkUpdate {
  upd_type : option CalculationType;
  upd_inputs : option (list float)
}.

(** Field [type: Optional[CalculationType] = Field(None, ...)]. *)
Definition update_field_type (arg : option pyval)
  : outcome (option CalculationType) ValidationError :=
  match arg with
  | None | Some PyNone => Returned None
  | Some v =>
      match enum_validate v with
      | Some t => Returned (Some t)
      | None => Raised [(LocType, EnumErr)]
      end
  end.

(** Field [inputs: Optional[List[float]] = Field(None, ..., min_items=2)]. *)
Definition update_field_inputs (arg : option pyval)
  : outcome (option (list float)) ValidationError :=
  match arg with
  | None | Some PyNone => Returned None
  | Some v =>
      match validate_list 2 v with
      | Returned xs => Returned (Some xs)
      | Raised es => Raised es
      end
  end.

(** [CalculationUpdate.validate_inputs], the model validator (mode "after"). *)
Definition update_validate_inputs (self : CalculationUpdate)
  : outcome CalculationUpdate string :=
  match upd_inputs self with
  | Some xs => if List.length xs <? 2 then Raised msg_two else Returned self
  | None => Returned self
  end.

(** [CalculationUpdate(type=..., inputs=...)] *)
Definition CalculationUpdate_new (kw_type kw_inputs : option pyval)
  : outcome CalculationUpdate ValidationError :=
  let r_type := update_field_type kw_type in
  let r_inputs := update_field_inputs kw_inputs in
  match r_type, r_inputs with
  | Returned t, Returned xs =>
      match update_validate_inputs (mkUpdate t xs) with
      | Returned self => Returned self
      | Raised msg => Raised [(LocModel, ValueErr msg)]
      end
  | _, _ => Raised (errors_of r_type ++ errors_of r_inputs)
  end.

End Core.

(** An instance of the float validator on numbers and booleans (lax mode
    takes [True] as 1.0 and [False] as 0.0); used to run the validators on
    concrete payloads. *)
Definition number_validator (v : pyval) : option float :=
  match v with
  | PyFloat f => Some f
  | PyInt z => Some (float_of_int z)
  | PyBool b => Some (if b then 1%float else 0%float)
  | _ => None
  end.

(** *** The schemas that extend [CalculationBase]

    A subclass keeps the fields and the validators of its base; its own
    fields come after them, and the model validator still runs only when
    every field validated. *)

(** The fields the subclasses add. *)
Inductive field_name : Type :=
| F_id
| F_user_id
| F_created_at
| F_updated_at
| F_result.

(** An entry of a subclass's [ValidationError]: one of the base's, or one
    of an added field. *)
Inductive field_error : Type :=
| Inherited (e : error_details)
| FieldMissing (f : field_name)       (* "Field required" *)
| FieldInvalid (f : field_name).      (* the value is not of the field's type *)

Definition field_errors_of {A : Type} (r : outcome A (list field_error))
  : list field_error :=
  match r with
  | Returned _ => []
  | Raised es => es
  end.

(** A field of the base, reporting in the subclass. *)
Definition inherited {A : Type} (r : outcome A ValidationError)
  : outcome A (list field_error) :=
  match r with
  | Returned a => Returned a
  | Raised es => Raised (map Inherited es)
  end.

(** A field declared [Field(...)], with the validator of its type. *)
Definition required {A : Type} (f : field_name) (validator : pyval -> option A)
    (arg : option pyval) : outcome A (list field_error) :=
  match arg with
  | None => Raised [FieldMissing f]
  | Some v =>
      match validator v with
      | Some a => Returned a
      | None => Raised [FieldInvalid f]
      end
  end.

Section Derived.

Variable float_validator : pyval -> option float.
(** [uuid.UUID] and [datetime.datetime], and Pydantic's validation of a
    value against each. *)
Variable UUID : Type.
Variable uuid_validator : pyval -> option UUID.
Variable datetime : Type.
Variable datetime_validator : pyval -> option datetime.

(** [class CalculationCreate(CalculationBase)] *)
Record CalculationCreate : Type := mkCreate {
  create_base :> CalculationBase;
  user_id : UUID
}.

(** [CalculationCreate(type=..., inputs=..., user_id=...)] *)
Definition CalculationCreate_new (kw_type kw_inputs kw_user_id : option pyval)
  : outcome CalculationCreate (list field_error) :=
  let r_type := inherited (field_type kw_type) in
  let r_inputs := inherited (field_inputs float_validator kw_inputs) in
  let r_user_id := required F_user_id uuid_validator kw_user_id in
  match r_type, r_inputs, r_user_id with
  | Returned t, Returned xs, Returned u =>
      match validate_inputs (mkBase t xs) with
      | Returned self => Returned (mkCreate self u)
      | Raised msg => Raised [Inherited (LocModel, ValueErr msg)]
      end
  | _, _, _ =>
      Raised (field_errors_of r_type ++ field_errors_of r_inputs
              ++ field_errors_of r_user_id)
  end.

(** [class CalculationResponse(CalculationBase)] *)
Record CalculationResponse : Type := mkResponse {
  response_base :> CalculationBase;
  resp_id : UUID;
  resp_user_id : UUID;
  created_at : datetime;
  updated_at : datetime;
  result : float
}.

(** [CalculationResponse(type=..., inputs=..., id=..., user_id=...,
    created_at=..., updated_at=..., result=...)] *)
Definition CalculationResponse_new
    (kw_type kw_inputs kw_id kw_user_id kw_created_at kw_updated_at kw_result
       : option pyval)
  : outcome CalculationResponse (list field_error) :=
  let r_type := inherited (field_type kw_type) in
  let r_inputs := inherited (field_inputs float_validator kw_inputs) in
  let r_id := required F_id uuid_validator kw_id in
  let r_user_id := required F_user_id uuid_validator kw_user_id in
  let r_created_at := required F_created_at datetime_validator kw_created_at in
  let r_updated_at := required F_updated_at datetime_validator kw_updated_at in
  let r_result := required F_result float_validator kw_result in
  match r_type, r_inputs, r_id, r_user_id, r_created_at, r_updated_at, r_result with
  | Returned t, Returned xs, Returned i, Returned u, Returned c, Returned d, Returned r =>
      match validate_inputs (mkBase t xs) with
      | Returned self => Returned (mkResponse self i u c d r)
      | Raised msg => Raised [Inherited (LocModel, ValueErr msg)]
      end
  | _, _, _, _, _, _, _ =>
      Raised (field_errors_of r_type ++ field_errors_of r_inputs
              ++ field_errors_of r_id ++ field_errors_of r_user_id
              ++ field_errors_of r_created_at ++ field_errors_of r_updated_at
              ++ field_errors_of r_result)
  end.

End Derived.

(** Instances of the added fields' validators, to run the subclasses on
    concrete payloads: an identifier or a time is an integer here. *)
Definition int_validator (v : pyval) : option Z :=
  match v with
  | PyInt z => Some z
  | _ => None
  end.

End Schemas.

(** ** app/operations/financial.py *)

Module Financial.

(** What running a command gives: the process could not be started, its
    output is not text, or it ran and left a return code and its output. *)
Inductive completed : Type :=
| SpawnFailed
| Garbled
| Exited (returncode : Z) (stdout : string).

(** The machine at the moment of a call. *)
Record os_state : Type := mkOs {
  path_exists : string -> bool;            (* os.path.exists *)
  which : string -> option string;         (* shutil.which *)
  run_process : list string -> completed
}.

(** What a call does besides returning. *)
Inductive event : Type :=
| Spawn (cmd : list pyval)        (* subprocess.run(cmd, ...) *)
| Print (e : exn).                (* print(f"Engine Error: {e}") *)

(** The argument vector as the strings the process receives. *)
Fixpoint argv (cmd : list pyval) : option (list string) :=
  match cmd with
  | [] => Some []
  | PyStr s :: r =>
      match argv r with
      | Some ss => Some (s :: ss)
      | None => None
      end
  | _ :: _ => None
  end.

(** [subprocess.run(cmd, capture_output=True, text=True, check=True).stdout] *)
Definition subprocess_run (os : os_state) (cmd : list pyval) : outcome string exn :=
  match argv cmd with
  | None => Raised TypeError
  | Some ss =>
      match run_process os ss with
      | SpawnFailed => Raised OSError
      | Garbled => Raised UnicodeDecodeError
      | Exited rc out => if Z.eqb rc 0 then Returned out else Raised (CalledProcessError rc)
      end
  end.

(** Truth value of what [shutil.which] returns. *)
Definition found (p : option string) : bool :=
  match p with
  | Some (String _ _) => true
  | _ => false
  end.

Definition default_exec : string := "./calculations/bin/Release/net6.0/FinanceCore".

Definition dotnet_run : list pyval :=
  [PyStr "dotnet"; PyStr "run"; PyStr "--project";
   PyStr "./calculations/FinanceCore.fsproj"; PyStr "--"].

Section Engine.

(** The process environment when the module is imported. *)
Variable environ : string -> option string.
(** [float(s)] for a string; [None] when it raises [ValueError]. *)
Variable float_of_str : string -> option float.
(** [str(x)] *)
Variable str : pyval -> string.

(** [FSHARP_EXEC = os.getenv("FSHARP_EXEC_PATH", "./calculations/...")] *)
Definition FSHARP_EXEC : string :=
  match environ "FSHARP_EXEC_PATH" with
  | Some p => p
  | None => default_exec
  end.

(** The [cmd] that [run_fsharp_cmd] builds from [args]. *)
Definition cmd (os : os_state) (args : list pyval) : list pyval :=
  if negb (path_exists os FSHARP_EXEC) && found (which os "dotnet")
  then dotnet_run ++ args
  else [PyStr FSHARP_EXEC] ++ args.

(** [run_fsharp_cmd(args)]: what the caller gets, and what happened.  The
    [ValueError] of [float] is recorded with the text it refused. *)
Definition run_fsharp_cmd (os : os_state) (args : pyval)
  : outcome float exn * list event :=
  match args with
  | PyList l =>
      let c := cmd os l in
      match subprocess_run os c with
      | Returned out =>
          match float_of_str (strip out) with
          | Some v => (Returned v, [Spawn c])
          | None => (Returned 0%float, [Spawn c; Print (ValueError (strip out))])
          end
      | Raised e => (Returned 0%float, [Spawn c; Print e])
      end
  | _ => (Raised TypeError, [])
  end.

(** [calculate_bond(face, coupon, market, years, freq=2)] *)
Definition calculate_bond (os : os_state) (face coupon market years : pyval)
  (freq : option pyval) :=
  let freq := match freq with Some f => f | None => PyInt 2 end in
  run_fsharp_cmd os
    (PyList [PyStr "bond"; PyStr (str face); PyStr (str coupon);
             PyStr (str market); PyStr (str years); PyStr (str freq)]).

(** [calculate_wacc(equity, debt, cost_e, cost_d, tax)] *)
Definition calculate_wacc (os : os_state) (equity debt cost_e cost_d tax : pyval) :=
  run_fsharp_cmd os
    (PyList [PyStr "wacc"; PyStr (str equity); PyStr (str debt);
             PyStr (str cost_e); PyStr (str cost_d); PyStr (str tax)]).

(** [calculate_option(spot, strike, time, rate, vol, kind)] *)
Definition calculate_option (os : os_state) (spot strike time rate vol kind : pyval) :=
  run_fsharp_cmd os
    (PyList [PyStr "option"; PyStr (str spot); PyStr (str strike);
             PyStr (str time); PyStr (str rate); PyStr (str vol); kind]).

(** [calculate_npv(rate, flows)]: [map(str, flows)] raises [TypeError],
    outside any [try], when [flows] cannot be iterated. *)
Definition calculate_npv (os : os_state) (rate : pyval) (flows : pyval) :=
  match iterate flows with
  | Some items =>
      let flow_str := join "," (map str items) in
      run_fsharp_cmd os (PyList [PyStr "npv"; PyStr (str rate); PyStr flow_str])
  | None => (Raised TypeError, [])
  end.

End Engine.

(** The result the specification speaks of. *)
Record CalculationResult : Type := mkResult {
  result_value : float;
  succeeded : bool
}.

(** The command the call handed to [subprocess.run], if it got that far. *)
Definition spawned (r : outcome float exn * list event) : option (list pyval) :=
  match snd r with
  | Spawn c :: _ => Some c
  | _ => None
  end.

(** Instances of the builtins on a fragment of their domain, to run the
    bridge on concrete inputs: decimal integers. *)
Fixpoint digits_value (acc : Z) (s : string) : option Z :=
  match s with
  | EmptyString => Some acc
  | String c r =>
      let n := nat_of_ascii c in
      if (48 <=? n) && (n <=? 57)
      then digits_value (10 * acc + Z.of_nat (n - 48))%Z r
      else None
  end.

Definition float_of_digits (s : string) : option float :=
  match s with
  | EmptyString => None
  | String "-" (String c r) => option_map (fun z => float_of_int (- z)) (digits_value 0 (String c r))
  | _ => option_map float_of_int (digits_value 0 s)
  end.

Fixpoint digits_of (fuel : nat) (n : nat) (acc : string) : string :=
  match fuel with
  | O => acc
  | S fuel' =>
      let acc' := String (ascii_of_nat (48 + n mod 10)) acc in
      if n / 10 =? 0 then acc' else digits_of fuel' (n / 10) acc'
  end.

Definition str_of_int (v : pyval) : string :=
  match v with
  | PyInt z =>
      let n := Z.abs_nat z in
      let ds := digits_of (S n) n EmptyString in
      if (z <? 0)%Z then String "-" ds else ds
  | PyStr s => s
  | _ => EmptyString
  end.

(** The same machine, its engine writing [ws1] before and [ws2] after what
    it wrote. *)
Definition pad_output (ws1 ws2 : string) (c : completed) : completed :=
  match c with
  | Exited rc out => Exited rc (ws1 ++ out ++ ws2)%string
  | _ => c
  end.

Definition padded (ws1 ws2 : string) (os : os_state) : os_state :=
  mkOs (path_exists os) (which os)
       (fun ss => pad_output ws1 ws2 (run_process os ss)).

(** Machines to run the bridge on. *)

(** No [FSHARP_EXEC_PATH] in the environment. *)
Definition no_environ : string -> option string := fun _ => None.

(** Neither the binary nor [dotnet]: nothing can be started. *)
Definition bare_machine : os_state :=
  mkOs (fun _ => false) (fun _ => None) (fun _ => SpawnFailed).

(** No binary, but [dotnet] on the path; the engine exits with status 1. *)
Definition dev_machine : os_state :=
  mkOs (fun _ => false)
       (fun name => if String.eqb name "dotnet" then Some "/usr/bin/dotnet" else None)
       (fun _ => Exited 1 "").

(** The binary is there and prints the given text. *)
Definition built_machine (stdout : string) : os_state :=
  mkOs (fun p => String.eqb p default_exec) (fun _ => None) (fun _ => Exited 0 stdout).

Definition newline : string := String "010" EmptyString.

End Financial.

(** ** app/operations: the arithmetic evaluator *)

Module Operations.

(** [Number = Union[int, float]] *)
Inductive Number : Type :=
| Int (z : Z)
| Float (f : float).

Definition to_float (a : Number) : float :=
  match a with
  | Int z => float_of_int z
  | Float f => f
  end.

(** [b == 0] *)
Definition eq_zero (b : Number) : bool :=
  match b with
  | Int z => Z.eqb z 0
  | Float f => is_zero f
  end.

(** Modelled from the spec: the module [app/operations/__init__.py] that
    defines [divide] is not among the sources; only its tests are
    ([tests/unit/test_calculation.py]).  Following section 4.2: [divide(a, b)]
    fails when [b == 0] exactly and otherwise returns [a / b] as a float,
    also for two integers.  The message is the one the test expects. *)
Definition divide (a b : Number) : outcome float exn :=
  if eq_zero b then Raised (ValueError "Cannot divide by zero!")
  else Returned (to_float a / to_float b)%float.

End Operations.

(** ** The specification's vocabulary *)

Module Spec.

Import Schemas.

(** The failure classes of section 7 that validation can end in; the shape
    rule has no class of its own there and is called [MalformedInputs]. *)
Inductive failure : Type :=
| UnknownOperation
| MalformedInputs
| InsufficientOperands
| DivisionByZero.

(** The class an entry of a [ValidationError] belongs to. *)
Definition classify (e : error_details) : failure :=
  match e with
  | (LocType, _) => UnknownOperation
  | (LocInputs, TooShort _ _) => InsufficientOperands
  | (LocModel, ValueErr m) =>
      if String.eqb m msg_zero then DivisionByZero else InsufficientOperands
  | _ => MalformedInputs
  end.

(** The call raised, and an entry of class [c] is among what it reports. *)
Definition fails_with {A : Type} (r : outcome A ValidationError) (c : failure) : Prop :=
  exists es, r = Raised es /\ In c (map classify es).

(** Case-insensitive equality of two strings. *)
Definition eq_ignore_case (s w : string) : Prop := lower s = lower w.

(** The type value is a string that is, case aside, the value of a member. *)
Definition recognized (v : pyval) : Prop :=
  exists s e, v = PyStr s /\ In e members /\ eq_ignore_case s (value e).

Section Rules.

Variable float_validator : pyval -> option float.

(** Every item is accepted as a number; the numbers. *)
Fixpoint numbers (l : list pyval) : option (list float) :=
  match l with
  | [] => Some []
  | v :: r =>
      match float_validator v, numbers r with
      | Some x, Some xs => Some (x :: xs)
      | _, _ => None
      end
  end.

(** Rule 1, membership: the member the type value names. *)
Definition membership (kw_type : option pyval) : option CalculationType :=
  match kw_type with
  | Some (PyStr s) => find (fun e => String.eqb (value e) (lower s)) members
  | _ => None
  end.

(** Rule 2, shape: the inputs are a sequence of numbers. *)
Definition shape (kw_inputs : option pyval) : option (list float) :=
  match kw_inputs with
  | Some (PyList l) => numbers l
  | _ => None
  end.

(** Rule 3, arity. *)
Definition arity (xs : list float) : bool := 2 <=? List.length xs.

(** Rule 4, semantic: for division no input after the first is zero. *)
Definition semantic (t : CalculationType) (xs : list float) : bool :=
  negb (CalculationType_eqb t DIVISION && existsb is_zero (tl xs)).

(** The earliest rule a payload fails, in the order of section 4.1. *)
Definition first_failure (kw_type kw_inputs : option pyval) : option failure :=
  match membership kw_type with
  | None => Some UnknownOperation
  | Some t =>
      match shape kw_inputs with
      | None => Some MalformedInputs
      | Some xs =>
          if negb (arity xs) then Some InsufficientOperands
          else if negb (semantic t xs) then Some DivisionByZero
          else None
      end
  end.

(** "First failure wins": a payload that fails a rule is reported with the
    error of the earliest failing rule and no other; one that fails none is
    validated. *)
Definition first_failure_wins (kw_type kw_inputs : option pyval) : Prop :=
  match first_failure kw_type kw_inputs with
  | Some c =>
      exists es, CalculationBase_new float_validator kw_type kw_inputs = Raised es
                 /\ es <> [] /\ Forall (fun e => classify e = c) es
  | None => exists m, CalculationBase_new float_validator kw_type kw_inputs = Returned m
  end.

(** What the code does instead: the fields [type] and [inputs] are each
    validated and their errors collected, so after the error of the earliest
    failing rule the report may go on with errors of the inputs field. *)
Definition earliest_failure_first (kw_type kw_inputs : option pyval) : Prop :=
  match first_failure kw_type kw_inputs with
  | Some c =>
      exists e es, CalculationBase_new float_validator kw_type kw_inputs = Raised (e :: es)
        /\ classify e = c
        /\ Forall (fun e' => classify e' = c
                     \/ (c = UnknownOperation
                         /\ (classify e' = MalformedInputs
                             \/ classify e' = InsufficientOperands))) es
  | None => exists m, CalculationBase_new float_validator kw_type kw_inputs = Returned m
  end.

(** The classes a report holds, in its order; a model that was built. *)
Definition reported (r : outcome CalculationBase ValidationError)
  : outcome CalculationBase (list failure) :=
  match r with
  | Returned m => Returned m
  | Raised es => Raised (map classify es)
  end.

Definition is_number (v : pyval) : bool :=
  match float_validator v with
  | Some _ => true
  | None => false
  end.

(** What rule 1 contributes to a report. *)
Definition membership_failures (kw_type : option pyval) : list failure :=
  match membership kw_type with
  | Some _ => []
  | None => [UnknownOperation]
  end.

(** What rules 2 and 3 contribute: one shape failure for inputs that are
    absent or not a list, one for each item of the list that is not a number;
    when the shape is right, the arity failure of a list too short. *)
Definition inputs_failures (kw_inputs : option pyval) : list failure :=
  match kw_inputs with
  | Some (PyList l) =>
      match numbers l with
      | Some xs => if arity xs then [] else [InsufficientOperands]
      | None => map (fun _ => MalformedInputs) (filter (fun v => negb (is_number v)) l)
      end
  | _ => [MalformedInputs]
  end.

(** The outcome with collected field errors: the failures of membership and
    of the inputs field together, membership first; the semantic failure
    alone when neither field fails; the model when nothing fails. *)
Definition collected_outcome (kw_type kw_inputs : option pyval)
  : outcome CalculationBase (list failure) :=
  match membership_failures kw_type ++ inputs_failures kw_inputs with
  | [] =>
      match membership kw_type, shape kw_inputs with
      | Some t, Some xs =>
          if semantic t xs then Returned (mkBase t xs) else Raised [DivisionByZero]
      | _, _ => Raised []
      end
  | failures => Raised failures
  end.

(** "Every inputs list of length less than 2 fails with
    InsufficientOperands, for every recognized type." *)
Definition short_list_fails_arity (v : pyval) (l : list pyval) : Prop :=
  recognized v -> List.length l < 2 ->
  fails_with (CalculationBase_new float_validator (Some v) (Some (PyList l)))
             InsufficientOperands.

End Rules.

Section Bridge.

Import Financial.

Variable environ : string -> option string.
Variable float_of_str : string -> option float.

(** The ways an engine call fails (sections 4.4 and 7): an argument that is
    not a string, a process that cannot be started, output that is not
    text, a non-zero status, output that is not a number. *)
Inductive engine_failure (os : os_state) (args : list pyval) : exn -> Prop :=
| BadArgument :
    argv (cmd environ os args) = None ->
    engine_failure os args TypeError
| CannotSpawn ss :
    argv (cmd environ os args) = Some ss ->
    run_process os ss = SpawnFailed ->
    engine_failure os args OSError
| NotText ss :
    argv (cmd environ os args) = Some ss ->
    run_process os ss = Garbled ->
    engine_failure os args UnicodeDecodeError
| NonZeroExit ss rc out :
    argv (cmd environ os args) = Some ss ->
    run_process os ss = Exited rc out ->
    rc <> 0%Z ->
    engine_failure os args (CalledProcessError rc)
| NotANumber ss out :
    argv (cmd environ os args) = Some ss ->
    run_process os ss = Exited 0 out ->
    float_of_str (strip out) = None ->
    engine_failure os args (ValueError (strip out)).

(** The engine ran to status zero and its output parses: the number. *)
Definition engine_answer (os : os_state) (args : list pyval) : option float :=
  match subprocess_run os (cmd environ os args) with
  | Returned out => float_of_str (strip out)
  | Raised _ => None
  end.

(** The output is one numeric token [tok], read as [v], with nothing but
    whitespace around it. *)
Definition one_numeric_token (out : string) (v : float) : Prop :=
  exists ws1 tok ws2,
    out = (ws1 ++ tok ++ ws2)%string
    /\ blank ws1 = true /\ blank ws2 = true /\ trimmed tok
    /\ float_of_str tok = Some v.

(** The statement that the caller is handed a [CalculationResult]: some reading
    [result_of] of what [run_fsharp_cmd] returns gives [succeeded = false]
    with value 0.0 when the engine failed, and [succeeded = true] with the
    engine's number when it answered. *)
Definition failure_is_flagged (result_of : outcome float exn -> CalculationResult) : Prop :=
  forall os args,
    let r := fst (run_fsharp_cmd environ float_of_str os (PyList args)) in
    match engine_answer os args with
    | None => result_of r = mkResult 0%float false
    | Some v => result_of r = mkResult v true
    end.

(** [str(x)] *)
Variable str : pyval -> string.

(** "All values stringified": what [calculate_option] hands over is the tag
    followed by [str] of each of its six arguments. *)
Definition option_values_are_stringified (os : os_state)
    (spot strike time rate vol kind : pyval) : Prop :=
  spawned (calculate_option environ float_of_str str os spot strike time rate vol kind)
  = Some (cmd environ os
            (map PyStr ["option"; str spot; str strike; str time; str rate; str vol;
                        str kind])).

End Bridge.

End Spec.

(** * Properties *)

(** ** Strings *)

Module PyFacts.

Lemma lower_char_idem c : lower_char (lower_char c) = lower_char c.
Proof.
  destruct c as [[] [] [] [] [] [] [] []]; reflexivity.
Qed.

Lemma lower_idem s : lower (lower s) = lower s.
Proof.
  induction s as [|c s IH]; simpl; [reflexivity|].
  now rewrite lower_char_idem, IH.
Qed.

Lemma lstrip_blank ws s : blank ws = true -> lstrip (ws ++ s)%string = lstrip s.
Proof.
  induction ws as [|c ws IH]; simpl; [reflexivity|].
  intros H. apply andb_prop in H as [Hc Hws]. rewrite Hc. auto.
Qed.

Lemma lstrip_all_blank ws : blank ws = true -> lstrip ws = EmptyString.
Proof.
  induction ws as [|c ws IH]; simpl; [reflexivity|].
  intros H. apply andb_prop in H as [Hc Hws]. rewrite Hc. auto.
Qed.

Lemma rstrip_blank ws : blank ws = true -> rstrip ws = EmptyString.
Proof.
  induction ws as [|c ws IH]; simpl; [reflexivity|].
  intros H. apply andb_prop in H as [Hc Hws]. rewrite (IH Hws), Hc. reflexivity.
Qed.

Lemma rstrip_app_blank s ws : blank ws = true -> rstrip (s ++ ws)%string = rstrip s.
Proof.
  intros Hws. induction s as [|c s IH]; simpl.
  - now apply rstrip_blank.
  - now rewrite IH.
Qed.

(** A string between two runs of whitespace is what [strip] leaves, when it
    has no whitespace at its own ends. *)
Lemma strip_surrounded ws1 tok ws2 :
  blank ws1 = true -> blank ws2 = true -> trimmed tok ->
  strip (ws1 ++ tok ++ ws2)%string = tok.
Proof.
  intros H1 H2 [Hl Hr]. unfold strip.
  rewrite (lstrip_blank _ _ H1).
  destruct tok as [|c tok].
  - simpl. rewrite (lstrip_all_blank _ H2). reflexivity.
  - assert (Hc : isspace c = false).
    { simpl in Hl. destruct (isspace c) eqn:E; [|reflexivity].
      exfalso. clear -Hl. assert (String.length (lstrip tok) <= String.length tok).
      { clear. induction tok as [|d t IH]; simpl; [lia|]. destruct (isspace d); simpl; lia. }
      rewrite Hl in H. simpl in H. lia. }
    change ((String c tok ++ ws2)%string) with (String c (tok ++ ws2)%string).
    cbn [lstrip]. rewrite Hc.
    change (String c (tok ++ ws2)%string) with ((String c tok ++ ws2)%string).
    rewrite (rstrip_app_blank _ _ H2). exact Hr.
Qed.

Lemma lstrip_split s : exists ws, s = (ws ++ lstrip s)%string /\ blank ws = true.
Proof.
  induction s as [|c s [ws [E B]]]; simpl.
  - now exists EmptyString.
  - destruct (isspace c) eqn:Hc.
    + exists (String c ws). simpl. rewrite Hc, B. now rewrite <- E.
    + now exists EmptyString.
Qed.

Lemma rstrip_split s : exists ws, s = (rstrip s ++ ws)%string /\ blank ws = true.
Proof.
  induction s as [|c s [ws [E B]]]; simpl.
  - now exists EmptyString.
  - destruct (rstrip s) as [|d r] eqn:R.
    + destruct (isspace c) eqn:Hc.
      * exists (String c ws). simpl in *. subst s. now rewrite Hc, B.
      * exists ws. simpl in *. now subst s.
    + exists ws. split; [|exact B]. simpl. f_equal. exact E.
Qed.

Lemma rstrip_idem s : rstrip (rstrip s) = rstrip s.
Proof.
  induction s as [|c s IH]; simpl; [reflexivity|].
  destruct (rstrip s) as [|d r] eqn:R.
  - destruct (isspace c) eqn:Hc; simpl; [reflexivity|]. now rewrite Hc.
  - cbn [rstrip] in *. rewrite IH. reflexivity.
Qed.

Lemma lstrip_head s : lstrip s = EmptyString \/ exists c r, lstrip s = String c r /\ isspace c = false.
Proof.
  induction s as [|c s IH]; simpl; [now left|].
  destruct (isspace c) eqn:Hc; [exact IH|]. right. now exists c, s.
Qed.

Lemma strip_trimmed s : trimmed (strip s).
Proof.
  unfold trimmed, strip. split; [|apply rstrip_idem].
  destruct (lstrip_head s) as [E | [c [r [E Hc]]]]; rewrite E; [reflexivity|].
  simpl. destruct (rstrip r); simpl; rewrite Hc; simpl; now rewrite ?Hc.
Qed.

(** What [strip] removes is whitespace at both ends, and nothing else. *)
Lemma strip_split s :
  exists ws1 ws2, s = (ws1 ++ strip s ++ ws2)%string
                  /\ blank ws1 = true /\ blank ws2 = true.
Proof.
  destruct (lstrip_split s) as [ws1 [E1 B1]].
  destruct (rstrip_split (lstrip s)) as [ws2 [E2 B2]].
  exists ws1, ws2. unfold strip. now rewrite <- E2, <- E1.
Qed.

End PyFacts.

(** ** Request validation *)

Module SchemasFacts.

Import Schemas Spec.

Lemma value_lower e : lower (value e) = value e.
Proof. destruct e; reflexivity. Qed.

Lemma find_member w :
  match find (fun e => String.eqb (value e) w) members with
  | Some t => existsb (String.eqb w) allowed = true /\ value t = w
  | None => existsb (String.eqb w) allowed = false
  end.
Proof.
  unfold allowed, members. cbn [find map existsb value].
  rewrite !(String.eqb_sym w).
  destruct (String.eqb_spec "addition" w) as [E|_]; [now split|].
  destruct (String.eqb_spec "subtraction" w) as [E|_]; [now split|].
  destruct (String.eqb_spec "multiplication" w) as [E|_]; [now split|].
  destruct (String.eqb_spec "division" w) as [E|_]; [now split|].
  reflexivity.
Qed.

Lemma find_value t : find (fun e => String.eqb (value e) (value t)) members = Some t.
Proof. destruct t; reflexivity. Qed.

(** The field [type] validates exactly when rule 1 names a member. *)
Lemma field_type_membership kw :
  match membership kw with
  | Some t => field_type kw = Returned t
  | None => exists k, field_type kw = Raised [(LocType, k)]
  end.
Proof.
  destruct kw as [v|]; [|simpl; eauto].
  destruct v; try (simpl; eauto; fail).
  unfold membership, field_type, validate_type.
  pose proof (find_member (lower s)) as H.
  destruct (find _ members) as [t|] eqn:F.
  - destruct H as [Hx Hv]. rewrite Hx. cbn [enum_validate]. now rewrite F.
  - rewrite H. eauto.
Qed.

Lemma membership_recognized v : membership (Some v) <> None <-> recognized v.
Proof.
  split.
  - destruct v; cbn [membership]; try congruence. intros H.
    destruct (find _ members) as [t|] eqn:F; [|congruence].
    apply find_some in F as [Hin Hv]. apply String.eqb_eq in Hv.
    exists s, t. repeat split; [exact Hin|].
    unfold eq_ignore_case. now rewrite value_lower.
  - intros [s [e [-> [_ H]]]]. unfold eq_ignore_case in H. rewrite value_lower in H.
    cbn [membership]. rewrite H, find_value. congruence.
Qed.

Section Core.

Variable float_validator : pyval -> option float.

Local Abbreviation numbers := (numbers float_validator).
Local Abbreviation shape := (shape float_validator).
Local Abbreviation validate_items := (validate_items float_validator).
Local Abbreviation field_inputs := (field_inputs float_validator).
Local Abbreviation CalculationBase_new := (CalculationBase_new float_validator).
Local Abbreviation CalculationUpdate_new := (CalculationUpdate_new float_validator).

Lemma numbers_length l xs : numbers l = Some xs -> List.length xs = List.length l.
Proof.
  revert xs. induction l as [|v l IH]; simpl; intros xs H.
  - now inversion H.
  - destruct (float_validator v); [|discriminate].
    destruct (numbers l); [|discriminate].
    inversion H. simpl. now rewrite (IH _ eq_refl).
Qed.

(** Items are reported one by one; none is, exactly when all are numbers. *)
Lemma validate_items_numbers l : forall i,
  match numbers l with
  | Some xs => validate_items i l = ([], xs)
  | None => exists e es xs, validate_items i l = (e :: es, xs)
              /\ Forall (fun e' => classify e' = MalformedInputs) (e :: es)
  end.
Proof.
  induction l as [|v l IH]; intros i; simpl; [reflexivity|].
  specialize (IH (S i)).
  destruct (float_validator v) as [x|].
  - destruct (numbers l) as [xs|].
    + now rewrite IH.
    + destruct IH as [e [es [xs [-> F]]]]. eauto.
  - destruct (numbers l) as [xs|].
    + rewrite IH. exists (LocItem i, FloatErr), [], xs. split; [reflexivity|].
      repeat constructor.
    + destruct IH as [e [es [xs [-> F]]]].
      exists (LocItem i, FloatErr), (e :: es), xs. split; [reflexivity|].
      constructor; [reflexivity|exact F].
Qed.

(** The field [inputs] against rules 2 and 3. *)
Lemma field_inputs_shape kw :
  match shape kw with
  | Some xs =>
      field_inputs kw =
        if List.length xs <? 2
        then Raised [(LocInputs, TooShort 2 (List.length xs))]
        else Returned xs
  | None => exists e es, field_inputs kw = Raised (e :: es)
              /\ Forall (fun e' => classify e' = MalformedInputs) (e :: es)
  end.
Proof.
  destruct kw as [v|].
  - destruct v; simpl; try (eexists _, []; split; [reflexivity|repeat constructor]).
    pose proof (validate_items_numbers l 0) as H.
    destruct (Spec.numbers float_validator l) as [xs|].
    + now rewrite H.
    + destruct H as [e [es [xs [-> F]]]]. eauto.
  - simpl. eexists _, []. split; [reflexivity|repeat constructor].
Qed.

Lemma validate_inputs_rules t xs :
  validate_inputs (mkBase t xs) =
    if negb (arity xs) then Raised msg_two
    else if negb (semantic t xs) then Raised msg_zero
    else Returned (mkBase t xs).
Proof.
  unfold validate_inputs, arity, semantic. cbn [inputs type].
  rewrite Nat.ltb_antisym.
  destruct (2 <=? List.length xs); cbn [negb]; [|reflexivity].
  destruct (CalculationType_eqb t DIVISION); cbn [andb negb]; [|reflexivity].
  destruct (existsb is_zero (tl xs)); reflexivity.
Qed.

(** Construction, rule by rule. *)
Lemma CalculationBase_new_rules kw_type kw_inputs :
  CalculationBase_new kw_type kw_inputs =
    match field_type kw_type, field_inputs kw_inputs with
    | Returned t, Returned xs =>
        if negb (semantic t xs) then Raised [(LocModel, ValueErr msg_zero)]
        else Returned (mkBase t xs)
    | r1, r2 => Raised (errors_of r1 ++ errors_of r2)
    end.
Proof.
  unfold CalculationBase_new.
  destruct (field_type kw_type) as [t|es1]; [|reflexivity].
  pose proof (field_inputs_shape kw_inputs) as H.
  destruct (field_inputs kw_inputs) as [xs|es2] eqn:F; [|reflexivity].
  rewrite validate_inputs_rules.
  destruct (Spec.shape float_validator kw_inputs) as [ys|].
  - destruct (List.length ys <? 2) eqn:L; [discriminate|].
    inversion H; subst ys. unfold arity. rewrite Nat.leb_antisym, L. cbn [negb].
    destruct (semantic t xs); reflexivity.
  - destruct H as [e [es [H _]]]. discriminate.
Qed.

Lemma fails_with_returned {A : Type} (a : A) c : ~ fails_with (Returned a) c.
Proof. intros [es [H _]]. discriminate. Qed.

Lemma fails_with_raised {A : Type} es c :
  fails_with (A := A) (Raised es) c <-> In c (map classify es).
Proof.
  split.
  - intros [es' [H Hin]]. now inversion H.
  - intros Hin. now exists es.
Qed.

(** C5. The type value passes the type rule exactly when it is a string
    that, case aside, is one of addition, subtraction, multiplication,
    division; constructing [CalculationBase] with any other value, whatever
    the inputs, reports an error of class UnknownOperation, and with such a
    value it reports none of that class. *)
Theorem type_rule_is_case_insensitive_membership (v : pyval) :
  ((exists t, field_type (Some v) = Returned t) <-> recognized v)
  /\ (forall kw_inputs,
        fails_with (CalculationBase_new (Some v) kw_inputs) UnknownOperation
        <-> ~ recognized v)
  /\ (forall s, v = PyStr s ->
        (recognized v <-> In (lower s) ["addition"; "subtraction"; "multiplication"; "division"])).
Proof.
  pose proof (field_type_membership (Some v)) as Hf.
  pose proof (membership_recognized v) as Hm.
  split; [|split].
  - destruct (membership (Some v)) as [t|].
    + rewrite Hf. split; [intros _; apply Hm; congruence | eauto].
    + destruct Hf as [k Hf]. rewrite Hf. split.
      * intros [t Ht]. discriminate.
      * intros Hr. apply Hm in Hr. congruence.
  - intros kw_inputs. rewrite CalculationBase_new_rules.
    pose proof (field_inputs_shape kw_inputs) as Hi.
    destruct (membership (Some v)) as [t|].
    + rewrite Hf. split; [|intros Hn; exfalso; apply Hn, Hm; congruence].
      intros Hfail. exfalso.
      destruct (Spec.shape float_validator kw_inputs) as [xs|].
      * rewrite Hi in Hfail. destruct (List.length xs <? 2).
        -- apply fails_with_raised in Hfail. simpl in Hfail. intuition discriminate.
        -- destruct (negb (semantic t xs)).
           ++ apply fails_with_raised in Hfail. simpl in Hfail. intuition discriminate.
           ++ now apply fails_with_returned in Hfail.
      * destruct Hi as [e [es [Hi F]]]. rewrite Hi in Hfail.
        apply fails_with_raised in Hfail. cbn [errors_of app] in Hfail.
        apply in_map_iff in Hfail as [e' [Hc Hin]].
        rewrite Forall_forall in F. rewrite (F _ Hin) in Hc. discriminate.
    + destruct Hf as [k Hf]. rewrite Hf. split.
      * intros _ Hr. apply Hm in Hr. congruence.
      * intros _. apply fails_with_raised. cbn [errors_of app map]. now left.
  - intros s ->. split.
    + intros [s' [e [E [_ H]]]]. inversion E; subst s'.
      unfold eq_ignore_case in H. rewrite value_lower in H. rewrite H.
      destruct e; simpl; tauto.
    + intros Hin. exists s.
      simpl in Hin. destruct Hin as [H|[H|[H|[H|[]]]]].
      * exists ADDITION. unfold eq_ignore_case. simpl. now intuition.
      * exists SUBTRACTION. unfold eq_ignore_case. simpl. now intuition.
      * exists MULTIPLICATION. unfold eq_ignore_case. simpl. now intuition.
      * exists DIVISION. unfold eq_ignore_case. simpl. now intuition.
Qed.

Lemma field_type_returned kw t : field_type kw = Returned t -> membership kw = Some t.
Proof.
  intros H. pose proof (field_type_membership kw) as Hf.
  destruct (membership kw) as [t'|]; [congruence|].
  destruct Hf as [k Hf]. congruence.
Qed.

Lemma field_inputs_numbers l xs :
  numbers l = Some xs ->
  field_inputs (Some (PyList l)) =
    if List.length l <? 2
    then Raised [(LocInputs, TooShort 2 (List.length l))]
    else Returned xs.
Proof.
  intros H. pose proof (field_inputs_shape (Some (PyList l))) as Hi.
  cbn [Spec.shape] in Hi. rewrite H in Hi.
  now rewrite (numbers_length _ _ H) in Hi.
Qed.

Lemma existsb_is_zero xs :
  existsb is_zero xs = true <-> exists x, In x xs /\ is_zero x = true.
Proof. apply existsb_exists. Qed.

(** The arity rule on a list of numbers. *)
Lemma arity_of_numbers (kw_type : option pyval) (l : list pyval) (xs : list float) :
  numbers l = Some xs ->
  (List.length l < 2 ->
     fails_with (CalculationBase_new kw_type (Some (PyList l))) InsufficientOperands
     /\ (forall t, field_type kw_type = Returned t ->
           CalculationBase_new kw_type (Some (PyList l))
           = Raised [(LocInputs, TooShort 2 (List.length l))])
     /\ (forall t, validate_inputs (mkBase t xs) = Raised msg_two))
  /\ (2 <= List.length l ->
       ~ fails_with (CalculationBase_new kw_type (Some (PyList l))) InsufficientOperands).
Proof.
  intros Hn. rewrite CalculationBase_new_rules, (field_inputs_numbers _ _ Hn).
  split.
  - intros Hlen. apply Nat.ltb_lt in Hlen. rewrite Hlen. repeat split.
    + destruct (field_type kw_type) as [t|es]; apply fails_with_raised;
        cbn [errors_of app].
      * now left.
      * rewrite map_app. apply in_or_app. right. now left.
    + intros t Ht. now rewrite Ht.
    + intros t. unfold validate_inputs. cbn [inputs].
      now rewrite (numbers_length _ _ Hn), Hlen.
  - intros Hlen. apply Nat.ltb_ge in Hlen. rewrite Hlen.
    pose proof (field_type_membership kw_type) as Hf.
    destruct (membership kw_type) as [t|].
    + rewrite Hf. destruct (negb (semantic t xs)).
      * rewrite fails_with_raised. simpl. intuition discriminate.
      * apply fails_with_returned.
    + destruct Hf as [k ->]. rewrite fails_with_raised. simpl. intuition discriminate.
Qed.

(** C7. With a recognized type and inputs that are a list of numbers,
    constructing [CalculationBase] reports an error of class DivisionByZero
    exactly when the type is division and some input after the first equals
    zero; with two inputs or more and no such zero, or another type, the
    model is built with these inputs. *)
Theorem division_by_zero_rule (v : pyval) (t : CalculationType)
    (l : list pyval) (xs : list float) :
  field_type (Some v) = Returned t ->
  numbers l = Some xs ->
  (fails_with (CalculationBase_new (Some v) (Some (PyList l))) DivisionByZero
     <-> t = DIVISION /\ exists x, In x (tl xs) /\ is_zero x = true)
  /\ (2 <= List.length l ->
       t <> DIVISION \/ (forall x, In x (tl xs) -> is_zero x = false) ->
       CalculationBase_new (Some v) (Some (PyList l)) = Returned (mkBase t xs)).
Proof.
  intros Ht Hn. rewrite CalculationBase_new_rules, Ht, (field_inputs_numbers _ _ Hn).
  destruct (List.length l <? 2) eqn:Hlen.
  - split.
    + rewrite fails_with_raised. cbn [errors_of app map classify In]. split.
      * intros [H|[]]. discriminate.
      * intros [_ [x [Hin _]]]. exfalso.
        apply Nat.ltb_lt in Hlen. rewrite <- (numbers_length _ _ Hn) in Hlen.
        destruct xs as [|a [|b r]]; simpl in *; try contradiction; lia.
    + intros H. apply Nat.ltb_lt in Hlen. lia.
  - unfold semantic. rewrite <- existsb_is_zero.
    destruct t; cbn [CalculationType_eqb andb negb];
      try (split; [ split; [intros H; now apply fails_with_returned in H
                           | intros [H _]; discriminate]
                  | reflexivity ]).
    destruct (existsb is_zero (tl xs)) eqn:Z; cbn [negb].
    + split.
      * rewrite fails_with_raised. simpl. intuition.
      * intros _ [H|H]; [congruence|]. exfalso.
        apply existsb_is_zero in Z as [x [Hin Hz]]. rewrite (H _ Hin) in Hz. discriminate.
    + split; [|reflexivity]. split.
      * intros H. now apply fails_with_returned in H.
      * intros [_ H]. discriminate.
Qed.

(** After the error of the earliest failing rule, only errors of the inputs
    field can follow, and only a membership error can be followed. *)
Lemma earliest_failing_rule_is_reported_first (kw_type kw_inputs : option pyval) :
  earliest_failure_first float_validator kw_type kw_inputs.
Proof.
  unfold earliest_failure_first, first_failure. rewrite CalculationBase_new_rules.
  pose proof (field_type_membership kw_type) as Hf.
  pose proof (field_inputs_shape kw_inputs) as Hi.
  destruct (membership kw_type) as [t|].
  - rewrite Hf. destruct (Spec.shape float_validator kw_inputs) as [xs|].
    + rewrite Hi. unfold arity. rewrite Nat.leb_antisym, negb_involutive.
      destruct (List.length xs <? 2).
      * eexists _, []. repeat split. constructor.
      * destruct (negb (semantic t xs)).
        -- eexists _, []. repeat split. constructor.
        -- eauto.
    + destruct Hi as [e [es [-> F]]]. exists e, es. cbn [errors_of app].
      inversion F; subst. repeat split; [assumption|].
      eapply Forall_impl; [|eassumption]. intros a Ha. now left.
  - destruct Hf as [k ->]. cbn [errors_of app].
    exists (LocType, k), (errors_of (field_inputs kw_inputs)).
    repeat split.
    destruct (Spec.shape float_validator kw_inputs) as [xs|].
    + rewrite Hi. destruct (List.length xs <? 2); cbn [errors_of]; [|constructor].
      constructor; [|constructor]. right. split; [reflexivity|]. now right.
    + destruct Hi as [e [es [-> F]]]. cbn [errors_of].
      eapply Forall_impl; [|exact F]. intros a Ha. right. split; [reflexivity|]. now left.
Qed.

Lemma numbers_none_report kw_type l :
  numbers l = None ->
  exists es, CalculationBase_new kw_type (Some (PyList l)) = Raised es
             /\ In MalformedInputs (map classify es)
             /\ ~ In InsufficientOperands (map classify es).
Proof.
  intros Hn. rewrite CalculationBase_new_rules.
  pose proof (field_inputs_shape (Some (PyList l))) as Hi.
  cbn [Spec.shape] in Hi. rewrite Hn in Hi. destruct Hi as [e [es [-> F]]].
  assert (Hes : forall c, In c (map classify (e :: es)) -> c = MalformedInputs).
  { intros c Hc. apply in_map_iff in Hc as [e' [<- Hin]].
    rewrite Forall_forall in F. now apply F. }
  pose proof (field_type_membership kw_type) as Hf.
  destruct (membership kw_type) as [t|].
  - rewrite Hf. exists (e :: es). cbn [errors_of app]. repeat split.
    + left. inversion F. assumption.
    + intros H. apply Hes in H. discriminate.
  - destruct Hf as [k ->]. exists ((LocType, k) :: e :: es). cbn [errors_of app].
    repeat split.
    + right. left. inversion F. assumption.
    + intros [H|H]; [discriminate|]. apply Hes in H. discriminate.
Qed.

(** C6, as the code has it.  With inputs that are a list, constructing
    [CalculationBase] reports an error of class InsufficientOperands exactly
    when the list has fewer than two items and every item is a number,
    whatever the type value; when the type is a recognized one that error is
    the whole report.  A list with an item that is not a number is reported
    for that item instead, however short it is.  The model validator itself
    refuses every model with fewer than two inputs. *)
Theorem arity_rule (kw_type : option pyval) (l : list pyval) :
  (fails_with (CalculationBase_new kw_type (Some (PyList l))) InsufficientOperands
     <-> List.length l < 2 /\ numbers l <> None)
  /\ (forall t, field_type kw_type = Returned t ->
        List.length l < 2 -> numbers l <> None ->
        CalculationBase_new kw_type (Some (PyList l))
        = Raised [(LocInputs, TooShort 2 (List.length l))])
  /\ (numbers l = None ->
        fails_with (CalculationBase_new kw_type (Some (PyList l))) MalformedInputs)
  /\ (forall t xs, List.length xs < 2 -> validate_inputs (mkBase t xs) = Raised msg_two).
Proof.
  split; [|split; [|split]].
  - destruct (numbers l) as [xs|] eqn:Hn.
    + destruct (arity_of_numbers kw_type l xs Hn) as [Hshort Hlong]. split.
      * intros Hf. split; [|discriminate].
        destruct (Nat.lt_ge_cases (List.length l) 2) as [H|H]; [exact H|].
        now destruct (Hlong H).
      * intros [Hlen _]. now apply Hshort.
    + destruct (numbers_none_report kw_type l Hn) as [es [E [_ Hno]]]. split.
      * intros Hf. rewrite E in Hf. apply fails_with_raised in Hf. contradiction.
      * intros [_ H]. congruence.
  - intros t Ht Hlen Hn. destruct (numbers l) as [xs|] eqn:E; [|congruence].
    destruct (arity_of_numbers kw_type l xs E) as [Hshort _].
    destruct (Hshort Hlen) as [_ [H _]]. now apply (H t).
  - intros Hn. destruct (numbers_none_report kw_type l Hn) as [es [E [Hin _]]].
    rewrite E. now apply fails_with_raised.
  - intros t xs Hlen. unfold validate_inputs. cbn [inputs].
    apply Nat.ltb_lt in Hlen. now rewrite Hlen.
Qed.

Lemma validate_items_classes l : forall i,
  map classify (fst (validate_items i l))
  = map (fun _ => MalformedInputs)
        (filter (fun v => negb (is_number float_validator v)) l).
Proof.
  induction l as [|v l IH]; intros i; cbn [Schemas.validate_items filter]; [reflexivity|].
  specialize (IH (S i)). unfold is_number.
  destruct (Schemas.validate_items float_validator (S i) l) as [es xs].
  destruct (float_validator v); cbn [fst negb map] in *; [exact IH|].
  now rewrite IH.
Qed.

(** What the inputs field reports is what rules 2 and 3 contribute. *)
Lemma field_inputs_failures kw :
  match field_inputs kw with
  | Returned xs => shape kw = Some xs /\ inputs_failures float_validator kw = []
  | Raised es => map classify es = inputs_failures float_validator kw /\ es <> []
  end.
Proof.
  destruct kw as [v|]; [|cbn; split; [reflexivity|discriminate]].
  destruct v; try (cbn; split; [reflexivity|discriminate]).
  unfold Schemas.field_inputs, check_inputs_is_list, validate_list, inputs_failures.
  cbn [Spec.shape].
  pose proof (validate_items_numbers l 0) as Hv.
  pose proof (validate_items_classes l 0) as Hc.
  destruct (Spec.numbers float_validator l) as [xs|].
  - rewrite Hv. unfold arity. rewrite Nat.leb_antisym.
    destruct (List.length xs <? 2); cbn [negb].
    + split; [reflexivity|discriminate].
    + now split.
  - destruct Hv as [e [es [xs [E _]]]]. rewrite E in *. cbn [fst] in Hc.
    split; [exact Hc|discriminate].
Qed.

(** C8, as the code has it.  The rules are looked at in the order
    membership, shape, arity, semantic, and the error of the earliest failing
    rule is the first entry of the report; but the fields [type] and [inputs]
    are each validated and their errors collected, so the report is the
    membership failure, if any, followed by the shape failures or the arity
    failure of the inputs, if any; the semantic failure is reported, alone,
    only when the first three rules pass; a model is returned only when no
    rule fails. *)
Theorem errors_are_collected_in_rule_order (kw_type kw_inputs : option pyval) :
  earliest_failure_first float_validator kw_type kw_inputs
  /\ reported (CalculationBase_new kw_type kw_inputs)
     = collected_outcome float_validator kw_type kw_inputs.
Proof.
  split; [apply earliest_failing_rule_is_reported_first|].
  rewrite CalculationBase_new_rules. unfold collected_outcome, membership_failures.
  pose proof (field_type_membership kw_type) as Hf.
  pose proof (field_inputs_failures kw_inputs) as Hi.
  destruct (membership kw_type) as [t|].
  - rewrite Hf. destruct (field_inputs kw_inputs) as [xs|es].
    + destruct Hi as [-> ->]. cbn [app].
      destruct (semantic t xs); reflexivity.
    + destruct Hi as [<- Hne]. cbn [errors_of app reported].
      destruct es; [congruence|reflexivity].
  - destruct Hf as [k ->]. cbn [app].
    destruct (field_inputs kw_inputs) as [xs|es].
    + destruct Hi as [_ ->]. reflexivity.
    + destruct Hi as [<- _]. reflexivity.
Qed.

Lemma update_field_inputs_numbers l xs :
  numbers l = Some xs ->
  update_field_inputs float_validator (Some (PyList l)) =
    if List.length l <? 2
    then Raised [(LocInputs, TooShort 2 (List.length l))]
    else Returned (Some xs).
Proof.
  intros H. unfold update_field_inputs, validate_list.
  pose proof (validate_items_numbers l 0) as Hv. rewrite H in Hv. rewrite Hv.
  rewrite (numbers_length _ _ H). now destruct (List.length l <? 2).
Qed.

(** C10. [CalculationUpdate] has no division-by-zero rule: with a type value
    its field accepts (division included) and inputs that are a list of two
    numbers or more, construction succeeds with these inputs, zeros or not;
    with fewer than two numbers it reports the length error. *)
Theorem update_checks_length_only (kw_type : option pyval)
    (ot : option CalculationType) (l : list pyval) (xs : list float) :
  update_field_type kw_type = Returned ot ->
  numbers l = Some xs ->
  (2 <= List.length l ->
     CalculationUpdate_new kw_type (Some (PyList l)) = Returned (mkUpdate ot (Some xs)))
  /\ (List.length l < 2 ->
       CalculationUpdate_new kw_type (Some (PyList l))
       = Raised [(LocInputs, TooShort 2 (List.length l))]).
Proof.
  intros Ht Hn. unfold Schemas.CalculationUpdate_new.
  rewrite Ht, (update_field_inputs_numbers _ _ Hn). split; intros Hlen.
  - apply Nat.ltb_ge in Hlen. rewrite Hlen.
    unfold update_validate_inputs. cbn [upd_inputs].
    now rewrite (numbers_length _ _ Hn), Hlen.
  - apply Nat.ltb_lt in Hlen. now rewrite Hlen.
Qed.

End Core.

End SchemasFacts.

(** *** The validators on concrete payloads *)

Module SchemasExamples.

Import Schemas Spec SchemasFacts.

Local Abbreviation base ty ins :=
  (CalculationBase_new number_validator (Some ty) (Some (PyList ins))).
Local Abbreviation update ty ins :=
  (CalculationUpdate_new number_validator (Some ty) (Some (PyList ins))).

Example msg_type_text :
  msg_type = "Type must be one of: addition, division, multiplication, subtraction".
Proof. reflexivity. Qed.

(** The cases of [tests/unit/test_calculation.py]. *)
Example base_valid_uppercase :
  base (PyStr "ADDITION") [PyInt 1; PyInt 2] = Returned (mkBase ADDITION [1; 2]%float).
Proof. vm_compute. reflexivity. Qed.

Example base_valid_float_inputs :
  base (PyStr "multiplication") [PyFloat 3.5; PyInt 2]
  = Returned (mkBase MULTIPLICATION [3.5; 2]%float).
Proof. vm_compute. reflexivity. Qed.

Example base_invalid_inputs_count :
  base (PyStr "addition") [PyInt 1] = Raised [(LocInputs, TooShort 2 1)].
Proof. vm_compute. reflexivity. Qed.

Example base_division_by_zero :
  base (PyStr "division") [PyInt 10; PyInt 0] = Raised [(LocModel, ValueErr msg_zero)].
Proof. vm_compute. reflexivity. Qed.

Example base_invalid_type :
  base (PyStr "modulo") [PyInt 10; PyInt 2] = Raised [(LocType, ValueErr msg_type)].
Proof. vm_compute. reflexivity. Qed.

Example base_type_not_a_string :
  base (PyInt 3) [PyInt 10; PyInt 2] = Raised [(LocType, ValueErr msg_type)].
Proof. vm_compute. reflexivity. Qed.

Example base_inputs_not_a_list :
  CalculationBase_new number_validator (Some (PyStr "addition")) (Some (PyInt 7))
  = Raised [(LocInputs, ValueErr msg_list)].
Proof. vm_compute. reflexivity. Qed.

(** Division: the first input may be zero, and only an exact zero counts. *)
Example base_division_accepts_100_2 :
  base (PyStr "division") [PyInt 100; PyInt 2] = Returned (mkBase DIVISION [100; 2]%float).
Proof. vm_compute. reflexivity. Qed.

Example base_division_zero_numerator :
  base (PyStr "division") [PyInt 0; PyInt 5] = Returned (mkBase DIVISION [0; 5]%float).
Proof. vm_compute. reflexivity. Qed.

Example base_division_tiny_divisor :
  base (PyStr "division") [PyInt 10; PyFloat 0x1p-1074]
  = Returned (mkBase DIVISION [10; 0x1p-1074]%float).
Proof. vm_compute. reflexivity. Qed.

Example base_division_negative_zero :
  base (PyStr "division") [PyInt 10; PyFloat (-0)] = Raised [(LocModel, ValueErr msg_zero)].
Proof. vm_compute. reflexivity. Qed.

Example base_addition_with_zeros :
  base (PyStr "addition") [PyInt 0; PyInt 0; PyInt 0]
  = Returned (mkBase ADDITION [0; 0; 0]%float).
Proof. vm_compute. reflexivity. Qed.

Example update_both :
  update (PyStr "division") [PyInt 20; PyInt 2]
  = Returned (mkUpdate (Some DIVISION) (Some [20; 2]%float)).
Proof. vm_compute. reflexivity. Qed.

Example update_too_few :
  CalculationUpdate_new number_validator None (Some (PyList [PyInt 1]))
  = Raised [(LocInputs, TooShort 2 1)].
Proof. vm_compute. reflexivity. Qed.

(** [arity_rule] at [type="addition", inputs=[1]]. *)
Lemma arity_rule_witness :
  base (PyStr "addition") [PyInt 1] = Raised [(LocInputs, TooShort 2 1)].
Proof.
  destruct (arity_rule number_validator (Some (PyStr "addition")) [PyInt 1])
    as [_ [Hexact _]].
  apply Hexact with ADDITION; [reflexivity | apply le_n | discriminate].
Defined.

(** C6 as the specification words it fails at [type="addition",
    inputs=["a"]]: the list has fewer than two items, and the report is the
    error of the item, with no arity error in it. *)
Lemma short_list_with_a_non_number :
  base (PyStr "addition") [PyStr "a"] = Raised [(LocItem 0, FloatErr)]
  /\ ~ short_list_fails_arity number_validator (PyStr "addition") [PyStr "a"].
Proof.
  split; [reflexivity|]. intros H.
  assert (Hr : recognized (PyStr "addition")).
  { exists "addition", ADDITION. repeat split. now left. }
  destruct (H Hr (le_n 2)) as [es [E Hin]].
  change (base (PyStr "addition") [PyStr "a"]) with
    (Raised (A := CalculationBase) [(LocItem 0, FloatErr)]) in E.
  inversion E; subst es. destruct Hin as [Hc|[]]. discriminate Hc.
Qed.

(** [division_by_zero_rule] at [type="division", inputs=[10, 0]]. *)
Lemma division_by_zero_rule_witness :
  fails_with (base (PyStr "division") [PyInt 10; PyInt 0]) DivisionByZero.
Proof.
  destruct (division_by_zero_rule number_validator (PyStr "division") DIVISION
              [PyInt 10; PyInt 0] [10; 0]%float eq_refl eq_refl) as [[_ Hzero] _].
  apply Hzero. split; [reflexivity|].
  exists 0%float. split; [left; reflexivity | reflexivity].
Defined.

(** [update_checks_length_only] at [type="division", inputs=[10, 0]]. *)
Lemma update_checks_length_only_witness :
  update (PyStr "division") [PyInt 10; PyInt 0]
  = Returned (mkUpdate (Some DIVISION) (Some [10; 0]%float)).
Proof.
  destruct (update_checks_length_only number_validator (Some (PyStr "division"))
              (Some DIVISION) [PyInt 10; PyInt 0] [10; 0]%float eq_refl eq_refl)
    as [Hlong _].
  exact (Hlong (le_n 2)).
Defined.

(** C8 as the specification words it fails at [type="modulo", inputs=[1]]:
    the report holds the membership error and the arity error, so it is not
    the error of the earliest failing rule alone. *)
Lemma first_failure_does_not_win :
  base (PyStr "modulo") [PyInt 1]
    = Raised [(LocType, ValueErr msg_type); (LocInputs, TooShort 2 1)]
  /\ ~ first_failure_wins number_validator
         (Some (PyStr "modulo")) (Some (PyList [PyInt 1])).
Proof.
  split; [vm_compute; reflexivity|].
  unfold first_failure_wins.
  change (first_failure number_validator (Some (PyStr "modulo")) (Some (PyList [PyInt 1])))
    with (Some UnknownOperation).
  intros [es [H [_ F]]].
  assert (E : es = [(LocType, ValueErr msg_type); (LocInputs, TooShort 2 1)]).
  { vm_compute in H. inversion H. reflexivity. }
  subst es. inversion F as [|e r _ F']. inversion F' as [|e' r' Hc _].
  discriminate Hc.
Qed.

End SchemasExamples.

(** ** The engine bridge *)

Module FinancialFacts.

Import Financial Spec PyFacts.

Section Engine.

Variable environ : string -> option string.
Variable float_of_str : string -> option float.
Variable str : pyval -> string.

Local Abbreviation FSHARP_EXEC := (FSHARP_EXEC environ).
Local Abbreviation cmd := (cmd environ).
Local Abbreviation run_fsharp_cmd := (run_fsharp_cmd environ float_of_str).
Local Abbreviation engine_failure := (engine_failure environ float_of_str).
Local Abbreviation engine_answer := (engine_answer environ float_of_str).
Local Abbreviation one_numeric_token := (one_numeric_token float_of_str).

(** A call with a list of arguments returns: it never raises, it runs the
    command it chose, and what it returns is the engine's answer or 0.0. *)
Lemma run_fsharp_cmd_returns os args :
  exists events,
    run_fsharp_cmd os (PyList args)
    = (Returned (match engine_answer os args with Some v => v | None => 0%float end),
       Spawn (cmd os args) :: events).
Proof.
  unfold Financial.run_fsharp_cmd, Spec.engine_answer.
  destruct (subprocess_run os (cmd os args)) as [out|e]; [|eauto].
  destruct (float_of_str (strip out)); eauto.
Qed.

Lemma engine_failure_no_answer os args e :
  engine_failure os args e -> engine_answer os args = None.
Proof.
  unfold Spec.engine_answer, subprocess_run.
  intros [H | ss H1 H2 | ss H1 H2 | ss rc out H1 H2 Hrc | ss out H1 H2 H3];
    rewrite ?H, ?H1, ?H2; try reflexivity.
  - destruct (Z.eqb_spec rc 0); [contradiction|reflexivity].
  - exact H3.
Qed.

(** C1, as the code has it.  When the engine call fails (an argument that
    is not a string, a process that cannot be started, a non-zero status,
    output that is not text or not a number), [run_fsharp_cmd] returns the
    bare float 0.0, after handing the chosen command to [subprocess.run]
    and printing the error; it does not raise. *)
Theorem engine_failure_returns_sentinel (os : os_state) (args : list pyval) (e : exn) :
  engine_failure os args e ->
  run_fsharp_cmd os (PyList args)
  = (Returned 0%float, [Spawn (cmd os args); Print e]).
Proof.
  unfold Financial.run_fsharp_cmd, subprocess_run.
  intros [H | ss H1 H2 | ss H1 H2 | ss rc out H1 H2 Hrc | ss out H1 H2 H3];
    rewrite ?H, ?H1, ?H2; try reflexivity.
  - destruct (Z.eqb_spec rc 0); [contradiction|reflexivity].
  - cbn [Z.eqb]. now rewrite H3.
Qed.

(** C2. The command is a function of the machine at the moment of the call:
    the binary's path when the binary exists; the source-run fallback when
    it does not and [dotnet] is found; the binary's path again when neither
    is there.  That command is the one the call runs. *)
Theorem command_selection (os : os_state) (args : list pyval) :
  (path_exists os FSHARP_EXEC = true -> cmd os args = PyStr FSHARP_EXEC :: args)
  /\ (path_exists os FSHARP_EXEC = false ->
      found (which os "dotnet") = true ->
      cmd os args
      = [PyStr "dotnet"; PyStr "run"; PyStr "--project";
         PyStr "./calculations/FinanceCore.fsproj"; PyStr "--"] ++ args)
  /\ (path_exists os FSHARP_EXEC = false ->
      which os "dotnet" = None ->
      cmd os args = PyStr FSHARP_EXEC :: args)
  /\ spawned (run_fsharp_cmd os (PyList args)) = Some (cmd os args).
Proof.
  unfold Financial.cmd. repeat split.
  - intros ->. reflexivity.
  - intros -> ->. reflexivity.
  - intros -> ->. reflexivity.
  - destruct (run_fsharp_cmd_returns os args) as [events ->]. reflexivity.
Qed.

(** C3. When the process ends with a return code and output: with code
    zero and output that is one numeric token between whitespace, the call
    returns that token's value; with a non-zero code, or output that is not
    of this form, it returns 0.0. *)
Theorem output_contract (os : os_state) (args : list pyval)
    (ss : list string) (rc : Z) (out : string) :
  argv (cmd os args) = Some ss ->
  run_process os ss = Exited rc out ->
  (forall v, rc = 0%Z -> one_numeric_token out v ->
     fst (run_fsharp_cmd os (PyList args)) = Returned v)
  /\ (rc <> 0%Z \/ (forall v, ~ one_numeric_token out v) ->
      fst (run_fsharp_cmd os (PyList args)) = Returned 0%float).
Proof.
  intros Hargv Hrun. unfold Financial.run_fsharp_cmd, subprocess_run.
  rewrite Hargv, Hrun. split.
  - intros v -> [ws1 [tok [ws2 [-> [B1 [B2 [T Hv]]]]]]]. cbn [Z.eqb].
    rewrite (strip_surrounded _ _ _ B1 B2 T), Hv. reflexivity.
  - intros [Hrc | Hno].
    + destruct (Z.eqb_spec rc 0); [contradiction|reflexivity].
    + destruct (Z.eqb rc 0); [|reflexivity].
      destruct (float_of_str (strip out)) as [v|] eqn:Hv; [|reflexivity].
      exfalso. apply (Hno v).
      destruct (strip_split out) as [ws1 [ws2 [E [B1 B2]]]].
      exists ws1, (strip out), ws2. repeat split; try assumption; apply strip_trimmed.
Qed.

(** What each builder hands to [subprocess.run]. *)
Lemma builders_commands (os : os_state) :
  (forall face coupon market years freq,
     spawned (calculate_bond environ float_of_str str os face coupon market years freq)
     = Some (cmd os (map PyStr
         ["bond"; str face; str coupon; str market; str years;
          str (match freq with Some f => f | None => PyInt 2 end)])))
  /\ (forall equity debt cost_e cost_d tax,
     spawned (calculate_wacc environ float_of_str str os equity debt cost_e cost_d tax)
     = Some (cmd os (map PyStr
         ["wacc"; str equity; str debt; str cost_e; str cost_d; str tax])))
  /\ (forall spot strike time rate vol kind,
     spawned (calculate_option environ float_of_str str os spot strike time rate vol kind)
     = Some (cmd os (map PyStr
         ["option"; str spot; str strike; str time; str rate; str vol] ++ [kind])))
  /\ (forall rate flows items,
     iterate flows = Some items ->
     spawned (calculate_npv environ float_of_str str os rate flows)
     = Some (cmd os (map PyStr ["npv"; str rate; join "," (map str items)]))).
Proof.
  repeat split; intros;
    unfold calculate_bond, calculate_wacc, calculate_option, calculate_npv;
    try match goal with H : iterate _ = Some _ |- _ => rewrite H end;
    match goal with
    | |- spawned (Financial.run_fsharp_cmd _ _ _ (PyList ?l)) = _ =>
        destruct (run_fsharp_cmd_returns os l) as [events ->]
    end; reflexivity.
Qed.

End Engine.

End FinancialFacts.

(** *** The bridge on concrete machines *)

Module FinancialExamples.

Import Financial Spec FinancialFacts.

Local Abbreviation run := (run_fsharp_cmd no_environ float_of_digits).
Local Abbreviation bond :=
  (calculate_bond no_environ float_of_digits str_of_int).

Example bond_on_bare_machine :
  bond bare_machine (PyInt 1000) (PyInt 5) (PyInt 4) (PyInt 10) None
  = (Returned 0%float,
     [Spawn (map PyStr [default_exec; "bond"; "1000"; "5"; "4"; "10"; "2"]);
      Print OSError]).
Proof. vm_compute. reflexivity. Qed.

Example bond_on_dev_machine :
  bond dev_machine (PyInt 1000) (PyInt 5) (PyInt 4) (PyInt 10) (Some (PyInt 1))
  = (Returned 0%float,
     [Spawn (map PyStr ["dotnet"; "run"; "--project"; "./calculations/FinanceCore.fsproj";
                        "--"; "bond"; "1000"; "5"; "4"; "10"; "1"]);
      Print (CalledProcessError 1)]).
Proof. vm_compute. reflexivity. Qed.

Example npv_on_built_machine :
  calculate_npv no_environ float_of_digits str_of_int
    (built_machine (String.append "1083" newline))
    (PyInt 0) (PyList [PyInt (-1000); PyInt 500; PyInt 600])
  = (Returned 1083%float,
     [Spawn (map PyStr [default_exec; "npv"; "0"; "-1000,500,600"])]).
Proof. vm_compute. reflexivity. Qed.

Example option_kind_not_a_string :
  calculate_option no_environ float_of_digits str_of_int (built_machine "7")
    (PyInt 100) (PyInt 100) (PyInt 1) (PyInt 0) (PyInt 1) (PyInt 3)
  = (Returned 0%float,
     [Spawn (map PyStr [default_exec; "option"; "100"; "100"; "1"; "0"; "1"] ++ [PyInt 3]);
      Print TypeError]).
Proof. vm_compute. reflexivity. Qed.

(** The binary is built between two calls: the second call uses it. *)
Example binary_appears_between_calls :
  spawned (run dev_machine (PyList [PyStr "wacc"]))
    = Some (map PyStr ["dotnet"; "run"; "--project";
                       "./calculations/FinanceCore.fsproj"; "--"; "wacc"])
  /\ spawned (run (built_machine "1") (PyList [PyStr "wacc"]))
    = Some (map PyStr [default_exec; "wacc"]).
Proof. split; reflexivity. Qed.

(** Arguments that are not a list fail at [[FSHARP_EXEC] + args], outside
    the [try]. *)
Example args_not_a_list : run bare_machine (PyInt 3) = (Raised TypeError, []).
Proof. reflexivity. Qed.

(** [engine_failure_returns_sentinel] on the bare machine. *)
Lemma engine_failure_returns_sentinel_witness :
  run bare_machine (PyList [PyStr "npv"])
  = (Returned 0%float, [Spawn [PyStr default_exec; PyStr "npv"]; Print OSError]).
Proof.
  exact (engine_failure_returns_sentinel no_environ float_of_digits bare_machine
           [PyStr "npv"] OSError
           (CannotSpawn no_environ float_of_digits bare_machine [PyStr "npv"]
              [default_exec; "npv"] eq_refl eq_refl)).
Defined.

(** [output_contract] on a machine whose engine prints ["  42\n"]. *)
Lemma output_contract_witness :
  fst (run (built_machine (String.append "  42" newline)) (PyList [PyStr "bond"]))
  = Returned 42%float.
Proof.
  destruct (output_contract no_environ float_of_digits
              (built_machine (String.append "  42" newline)) [PyStr "bond"]
              [default_exec; "bond"] 0 (String.append "  42" newline) eq_refl eq_refl)
    as [Hok _].
  apply Hok; [reflexivity|].
  exists "  ", "42", newline. repeat split.
Defined.

(** C1 as the specification words it fails: what the caller gets is a float
    and nothing else.  On the bare machine the call fails, on a machine
    whose engine prints 0 it succeeds, and both return 0.0: no reading of the
    returned value is a [succeeded] flag. *)
Lemma failure_is_not_flagged :
  fst (run bare_machine (PyList [PyStr "wacc"]))
    = fst (run (built_machine "0") (PyList [PyStr "wacc"]))
  /\ engine_answer no_environ float_of_digits bare_machine [PyStr "wacc"] = None
  /\ engine_answer no_environ float_of_digits (built_machine "0") [PyStr "wacc"]
     = Some 0%float
  /\ ~ exists result_of, failure_is_flagged no_environ float_of_digits result_of.
Proof.
  repeat split.
  intros [result_of H].
  pose proof (H bare_machine [PyStr "wacc"]) as Hfail.
  pose proof (H (built_machine "0") [PyStr "wacc"]) as Hok.
  change (result_of (Returned 0%float) = mkResult 0%float false) in Hfail.
  change (result_of (Returned 0%float) = mkResult 0%float true) in Hok.
  rewrite Hfail in Hok. discriminate Hok.
Qed.

End FinancialExamples.

(** ** The arithmetic evaluator *)

Module OperationsFacts.

Import Operations.

(** C9. [divide(a, b)] fails with the division-by-zero error for every [a]
    when [b] is zero (the integer 0, or a float zero of either sign) and
    only then; otherwise it returns the quotient as a float, also when both
    operands are integers.  The comparison is exact: the smallest positive
    float is a divisor like any other. *)
Theorem divide_fails_exactly_on_zero (a b : Number) :
  (eq_zero b = true <-> divide a b = Raised (ValueError "Cannot divide by zero!"))
  /\ (eq_zero b = false <-> divide a b = Returned (to_float a / to_float b)%float)
  /\ divide a (Int 0) = Raised (ValueError "Cannot divide by zero!")
  /\ divide a (Float 0) = Raised (ValueError "Cannot divide by zero!")
  /\ divide a (Float (-0)) = Raised (ValueError "Cannot divide by zero!")
  /\ divide a (Float 0x1p-1074) = Returned (to_float a / 0x1p-1074)%float
  /\ divide (Int 6) (Int 3) = Returned 2%float.
Proof.
  unfold divide. repeat split; try reflexivity;
    destruct (eq_zero b); intros; congruence.
Qed.

(** The cases of [test_divide] and [test_divide_by_zero]. *)
Example test_divide :
  divide (Int 6) (Int 3) = Returned 2%float
  /\ divide (Int (-6)) (Int 3) = Returned (-2)%float
  /\ divide (Float 6) (Float 3) = Returned 2%float
  /\ divide (Float (-6)) (Float 3) = Returned (-2)%float
  /\ divide (Int 0) (Int 5) = Returned 0%float
  /\ divide (Int 6) (Int 0) = Raised (ValueError "Cannot divide by zero!").
Proof. repeat split. Qed.

End OperationsFacts.

(** ** What validated models satisfy, and how the schemas relate *)

Module SchemasInvariants.

Import Schemas Spec SchemasFacts.

Section Core.

Variable float_validator : pyval -> option float.

Local Abbreviation numbers := (numbers float_validator).
Local Abbreviation field_inputs := (field_inputs float_validator).
Local Abbreviation CalculationBase_new := (CalculationBase_new float_validator).
Local Abbreviation CalculationUpdate_new := (CalculationUpdate_new float_validator).

Lemma field_inputs_returned kw xs :
  field_inputs kw = Returned xs ->
  2 <= List.length xs /\ shape float_validator kw = Some xs.
Proof.
  intros H. pose proof (field_inputs_shape float_validator kw) as Hs.
  destruct (shape float_validator kw) as [ys|].
  - rewrite H in Hs. destruct (List.length ys <? 2) eqn:L; [discriminate|].
    inversion Hs; subst ys. apply Nat.ltb_ge in L. now split.
  - destruct Hs as [e [es [Hs _]]]. congruence.
Qed.

(** Construction succeeds exactly when both fields validate and the
    semantic rule holds. *)
Lemma CalculationBase_new_returned kw_type kw_inputs m :
  CalculationBase_new kw_type kw_inputs = Returned m <->
  field_type kw_type = Returned (type m)
  /\ field_inputs kw_inputs = Returned (inputs m)
  /\ semantic (type m) (inputs m) = true.
Proof.
  rewrite CalculationBase_new_rules. split.
  - destruct (field_type kw_type) as [t|]; [|discriminate].
    destruct (field_inputs kw_inputs) as [xs|]; [|discriminate].
    destruct (semantic t xs) eqn:S; cbn [negb]; [|discriminate].
    intros H. inversion H. subst m. cbn [type inputs]. now rewrite S.
  - intros [-> [-> S]]. rewrite S. cbn [negb]. now destruct m.
Qed.

Lemma semantic_no_zero t xs :
  semantic t xs = true ->
  t = DIVISION -> Forall (fun x => is_zero x = false) (tl xs).
Proof.
  unfold semantic. intros S ->. cbn [CalculationType_eqb andb] in S.
  apply negb_true_iff in S. apply Forall_forall. intros x Hin.
  destruct (is_zero x) eqn:Z; [|reflexivity].
  assert (existsb is_zero (tl xs) = true) by (apply existsb_exists; eauto).
  congruence.
Qed.

(** X1. Every [CalculationBase] that construction returns has at least two
    inputs and, when its type is division, no zero among the inputs after
    the first; its own model validator accepts it as it is. *)
Theorem validated_base_invariant (kw_type kw_inputs : option pyval) (m : CalculationBase) :
  CalculationBase_new kw_type kw_inputs = Returned m ->
  2 <= List.length (inputs m)
  /\ (type m = DIVISION -> Forall (fun x => is_zero x = false) (tl (inputs m)))
  /\ validate_inputs m = Returned m.
Proof.
  intros H. apply CalculationBase_new_returned in H as [_ [Hi S]].
  apply field_inputs_returned in Hi as [Hlen _].
  split; [exact Hlen|]. split.
  - now apply semantic_no_zero.
  - destruct m as [t xs]. rewrite validate_inputs_rules.
    cbn [type inputs] in *. unfold arity.
    apply Nat.leb_le in Hlen. rewrite Hlen, S. reflexivity.
Qed.

Lemma validate_items_locations l : forall i e,
  In e (fst (validate_items float_validator i l)) -> exists j, e = (LocItem j, FloatErr).
Proof.
  induction l as [|v l IH]; intros i e; cbn [validate_items]; [intros []|].
  specialize (IH (S i) e).
  destruct (validate_items float_validator (S i) l) as [es xs].
  destruct (float_validator v); cbn [fst] in *; [exact IH|].
  intros [<-|Hin]; eauto.
Qed.

Lemma validate_list_outcome v :
  match validate_list float_validator 2 v with
  | Returned xs => 2 <= List.length xs
  | Raised es => forall e, In e es -> fst e <> LocModel
  end.
Proof.
  destruct v; simpl; try (intros e [<-|[]]; discriminate).
  pose proof (validate_items_numbers float_validator l 0) as H.
  destruct (Spec.numbers float_validator l) as [xs|].
  - rewrite H. destruct (List.length xs <? 2) eqn:L.
    + intros e [<-|[]]. discriminate.
    + now apply Nat.ltb_ge in L.
  - destruct H as [e0 [es [xs [E F]]]]. rewrite E. intros e Hin.
    destruct (validate_items_locations l 0 e) as [j ->]; [now rewrite E|].
    discriminate.
Qed.

(** X2. The length check of the two model validators never fires: neither
    [CalculationBase] nor [CalculationUpdate] ever reports "At least two
    numbers are required for calculation", because a list that short has
    already failed the field's own minimum length. *)
Theorem length_message_is_never_reported (kw_type kw_inputs : option pyval) :
  ~ In (LocModel, ValueErr msg_two) (errors_of (CalculationBase_new kw_type kw_inputs))
  /\ ~ In (LocModel, ValueErr msg_two) (errors_of (CalculationUpdate_new kw_type kw_inputs)).
Proof.
  split.
  - rewrite CalculationBase_new_rules.
    pose proof (field_type_membership kw_type) as Ht.
    pose proof (field_inputs_shape float_validator kw_inputs) as Hi.
    assert (Hin : ~ In (LocModel, ValueErr msg_two) (errors_of (field_inputs kw_inputs))).
    { destruct (shape float_validator kw_inputs) as [xs|].
      - rewrite Hi. destruct (List.length xs <? 2); cbn; intuition discriminate.
      - destruct Hi as [e [es [-> F]]]. cbn [errors_of]. intros Hin.
        rewrite Forall_forall in F. specialize (F _ Hin). discriminate F. }
    destruct (membership kw_type) as [t|].
    + rewrite Ht. destruct (field_inputs kw_inputs) as [xs|es].
      * destruct (negb (semantic t xs)); cbn; intuition discriminate.
      * exact Hin.
    + destruct Ht as [k ->]. cbn [errors_of app]. intros [H|H]; [discriminate|].
      now apply Hin.
  - unfold Schemas.CalculationUpdate_new.
    assert (Ht : forall e, In e (errors_of (update_field_type kw_type)) -> fst e <> LocModel).
    { unfold update_field_type.
      destruct kw_type as [v|]; [|cbn; tauto].
      destruct v; try (cbn; tauto);
        destruct (enum_validate _); cbn [errors_of]; try (cbn; tauto);
        intros e [<-|[]]; discriminate. }
    assert (Hi : match update_field_inputs float_validator kw_inputs with
                 | Returned (Some xs) => 2 <= List.length xs
                 | Returned None => True
                 | Raised es => forall e, In e es -> fst e <> LocModel
                 end).
    { unfold update_field_inputs.
      destruct kw_inputs as [v|]; [|exact I].
      pose proof (validate_list_outcome v) as Hv.
      destruct v; try exact I;
        destruct (validate_list float_validator 2 _); exact Hv. }
    destruct (update_field_type kw_type) as [ot|es1];
      destruct (update_field_inputs float_validator kw_inputs) as [oxs|es2].
    + unfold update_validate_inputs. cbn [upd_inputs].
      destruct oxs as [xs|]; [|tauto].
      apply Nat.ltb_ge in Hi. rewrite Hi. tauto.
    + cbn [errors_of app]. intros Hin. now apply (Hi _ Hin).
    + cbn [errors_of]. rewrite app_nil_r. intros Hin. now apply (Ht _ Hin).
    + cbn [errors_of]. intros Hin. apply in_app_or in Hin as [Hin|Hin].
      * now apply (Ht _ Hin).
      * now apply (Hi _ Hin).
Qed.

Lemma field_type_value t : field_type (Some (PyStr (value t))) = Returned t.
Proof. destruct t; reflexivity. Qed.

Lemma numbers_of_floats xs :
  (forall f, float_validator (PyFloat f) = Some f) ->
  numbers (map PyFloat xs) = Some xs.
Proof.
  intros Hf. induction xs as [|x xs IH]; cbn [map Spec.numbers]; [reflexivity|].
  now rewrite Hf, IH.
Qed.

(** X3. A validated [CalculationBase] validates again to itself: when the
    float validator takes a float as it is, building a model from the type's
    value and the inputs of a model that construction returned gives that
    model back. *)
Theorem revalidation_round_trip (kw_type kw_inputs : option pyval) (m : CalculationBase) :
  (forall f, float_validator (PyFloat f) = Some f) ->
  CalculationBase_new kw_type kw_inputs = Returned m ->
  CalculationBase_new (Some (PyStr (value (type m)))) (Some (PyList (map PyFloat (inputs m))))
  = Returned m.
Proof.
  intros Hf H. apply CalculationBase_new_returned in H as [_ [Hi S]].
  apply field_inputs_returned in Hi as [Hlen _].
  apply CalculationBase_new_returned. split; [apply field_type_value|].
  split; [|exact S].
  rewrite (field_inputs_numbers float_validator _ _ (numbers_of_floats _ Hf)).
  rewrite length_map. apply Nat.ltb_ge in Hlen. now rewrite Hlen.
Qed.

(** X4. The type field of [CalculationUpdate] has no case folding: it takes
    a string exactly when the string is the value of a member, so a
    recognized spelling that is not all lower case is accepted by
    [CalculationBase] and refused by [CalculationUpdate]. *)
Theorem update_type_is_case_sensitive (s : string) :
  (forall t, update_field_type (Some (PyStr s)) = Returned (Some t) <-> s = value t)
  /\ (recognized (PyStr s) -> lower s <> s ->
      (exists t, field_type (Some (PyStr s)) = Returned t)
      /\ update_field_type (Some (PyStr s)) = Raised [(LocType, EnumErr)]).
Proof.
  cbn [update_field_type enum_validate].
  pose proof (find_member s) as Hm.
  split.
  - intros t. destruct (find _ members) as [t'|] eqn:F.
    + destruct Hm as [_ Hv]. split.
      * intros H. inversion H. now subst.
      * intros ->. rewrite find_value in F. now inversion F.
    + split; [discriminate|]. intros ->. rewrite find_value in F. discriminate.
  - intros Hr Hl. split.
    + apply membership_recognized in Hr.
      pose proof (field_type_membership (Some (PyStr s))) as Hf.
      destruct (membership (Some (PyStr s))) as [t|]; [eauto|congruence].
    + destruct (find _ members) as [t'|]; [|reflexivity].
      destruct Hm as [_ Hv]. exfalso. apply Hl. rewrite <- Hv. apply value_lower.
Qed.

Lemma update_field_type_value t :
  update_field_type (Some (PyStr (value t))) = Returned (Some t).
Proof. destruct t; reflexivity. Qed.

(** X5. On a type given by its value and inputs given as a list,
    [CalculationUpdate] is [CalculationBase] without the zero rule: what the
    base returns the update returns; when the base reports a division by
    zero the update validates, with the inputs and their zero; every other
    report of the base is the report of the update. *)
Theorem update_is_base_without_zero_rule (t : CalculationType) (l : list pyval) :
  match CalculationBase_new (Some (PyStr (value t))) (Some (PyList l)) with
  | Returned m =>
      CalculationUpdate_new (Some (PyStr (value t))) (Some (PyList l))
      = Returned (mkUpdate (Some (type m)) (Some (inputs m)))
  | Raised es =>
      (es = [(LocModel, ValueErr msg_zero)] ->
       t = DIVISION
       /\ exists xs,
            numbers l = Some xs /\ existsb is_zero (tl xs) = true
            /\ CalculationUpdate_new (Some (PyStr (value t))) (Some (PyList l))
               = Returned (mkUpdate (Some DIVISION) (Some xs)))
      /\ (es <> [(LocModel, ValueErr msg_zero)] ->
          CalculationUpdate_new (Some (PyStr (value t))) (Some (PyList l)) = Raised es)
  end.
Proof.
  rewrite CalculationBase_new_rules, field_type_value.
  unfold Schemas.CalculationUpdate_new. rewrite update_field_type_value.
  assert (E : update_field_inputs float_validator (Some (PyList l)) =
              match field_inputs (Some (PyList l)) with
              | Returned xs => Returned (Some xs)
              | Raised es => Raised es
              end) by reflexivity.
  rewrite E. clear E.
  pose proof (validate_list_outcome (PyList l)) as Hv.
  change (validate_list float_validator 2 (PyList l))
    with (field_inputs (Some (PyList l))) in Hv.
  destruct (field_inputs (Some (PyList l))) as [xs|es] eqn:F.
  - apply field_inputs_returned in F as [Hlen Hs]. cbn [Spec.shape] in Hs.
    assert (U : update_validate_inputs (mkUpdate (Some t) (Some xs))
                = Returned (mkUpdate (Some t) (Some xs))).
    { unfold update_validate_inputs. cbn [upd_inputs].
      apply Nat.ltb_ge in Hlen. now rewrite Hlen. }
    rewrite U. unfold semantic.
    destruct t; cbn [CalculationType_eqb andb negb type inputs]; try reflexivity.
    destruct (existsb is_zero (tl xs)) eqn:Z; cbn [negb type inputs]; [|reflexivity].
    split; [|congruence]. intros _. split; [reflexivity|]. exists xs. now repeat split.
  - cbn [errors_of app]. split; [|reflexivity].
    intros ->. exfalso. apply (Hv (LocModel, ValueErr msg_zero)); [now left|reflexivity].
Qed.

(** X16. Case plays no part in the type: a string and its lower-case form
    give the same result, model or report, with any inputs. *)
Theorem type_case_is_ignored (s : string) (kw_inputs : option pyval) :
  CalculationBase_new (Some (PyStr s)) kw_inputs
  = CalculationBase_new (Some (PyStr (lower s))) kw_inputs.
Proof.
  unfold Schemas.CalculationBase_new, field_type, validate_type.
  now rewrite PyFacts.lower_idem.
Qed.

Lemma validate_inputs_after_fields kw xs t :
  field_inputs kw = Returned xs ->
  validate_inputs (mkBase t xs) =
    if semantic t xs then Returned (mkBase t xs) else Raised msg_zero.
Proof.
  intros H. apply field_inputs_returned in H as [Hlen _].
  rewrite validate_inputs_rules. unfold arity.
  apply Nat.leb_le in Hlen. rewrite Hlen. cbn [negb].
  now destruct (semantic t xs).
Qed.

Lemma field_errors_not_model kw_type kw_inputs e :
  In e (errors_of (field_type kw_type) ++ errors_of (field_inputs kw_inputs)) ->
  fst e <> LocModel.
Proof.
  intros Hin. apply in_app_or in Hin as [Hin|Hin].
  - pose proof (field_type_membership kw_type) as Ht.
    destruct (membership kw_type) as [t|].
    + rewrite Ht in Hin. destruct Hin.
    + destruct Ht as [k Ht]. rewrite Ht in Hin. destruct Hin as [<-|[]]. discriminate.
  - unfold Schemas.field_inputs in Hin. destruct kw_inputs as [v|].
    + destruct v; cbn [check_inputs_is_list errors_of] in Hin;
        try (destruct Hin as [<-|[]]; discriminate).
      pose proof (validate_list_outcome (PyList l)) as Hv.
      destruct (validate_list float_validator 2 (PyList l)); [destruct Hin|].
      now apply Hv.
    + destruct Hin as [<-|[]]. discriminate.
Qed.

End Core.

Section Derived.

Variable float_validator : pyval -> option float.
Variable UUID : Type.
Variable uuid_validator : pyval -> option UUID.
Variable datetime : Type.
Variable datetime_validator : pyval -> option datetime.

Local Abbreviation field_inputs := (field_inputs float_validator).
Local Abbreviation CalculationBase_new := (CalculationBase_new float_validator).
Local Abbreviation CalculationUpdate_new := (CalculationUpdate_new float_validator).
Local Abbreviation CalculationCreate_new :=
  (CalculationCreate_new float_validator UUID uuid_validator).
Local Abbreviation CalculationResponse_new :=
  (CalculationResponse_new float_validator UUID uuid_validator datetime datetime_validator).

Lemma required_returned {A : Type} f (validator : pyval -> option A) arg a :
  required f validator arg = Returned a <->
  exists v, arg = Some v /\ validator v = Some a.
Proof.
  unfold required. split.
  - destruct arg as [v|]; [|discriminate]. destruct (validator v) eqn:E; [|discriminate].
    intros H. inversion H. subst. eauto.
  - intros [v [-> ->]]. reflexivity.
Qed.

(** X6. [CalculationCreate] validates exactly when [CalculationBase]
    validates on the same type and inputs and [user_id] is given and is a
    UUID; the model it returns holds what the base returns. *)
Theorem create_is_base_with_user_id (kw_type kw_inputs kw_user_id : option pyval)
    (c : CalculationCreate UUID) :
  CalculationCreate_new kw_type kw_inputs kw_user_id = Returned c <->
  CalculationBase_new kw_type kw_inputs = Returned (create_base UUID c)
  /\ exists v, kw_user_id = Some v /\ uuid_validator v = Some (user_id UUID c).
Proof.
  rewrite <- (required_returned F_user_id).
  rewrite CalculationBase_new_returned.
  unfold Schemas.CalculationCreate_new, inherited.
  destruct (field_type kw_type) as [t|es1].
  - destruct (field_inputs kw_inputs) as [xs|es2] eqn:Fi.
    + rewrite (validate_inputs_after_fields _ _ _ t Fi).
      destruct (required F_user_id uuid_validator kw_user_id) as [u|es3].
      * destruct (semantic t xs) eqn:S.
        -- split.
           ++ intros H. inversion H. cbn. now rewrite S.
           ++ destruct c as [[t' xs'] u']. cbn. intros [[Ht [Hx _]] Hu]. congruence.
        -- split; [discriminate|].
           destruct c as [[t' xs'] u']. cbn. intros [[Ht [Hx S']] _]. congruence.
      * split; [discriminate|]. intros [_ H]. discriminate.
    + split; [destruct (required _ _ _); discriminate|]. intros [[_ [H _]] _]. discriminate.
  - split.
    + destruct (field_inputs kw_inputs); destruct (required _ _ _); discriminate.
    + intros [[H _] _]. discriminate.
Qed.

(** X7. A [user_id] that is missing or is not a UUID hides the model
    validator: the report is then the field errors of type and inputs
    followed by the error of [user_id], and holds no error of the model
    validator, division by zero included. *)
Theorem bad_user_id_hides_model_errors (kw_type kw_inputs kw_user_id : option pyval)
    (eu : list field_error) :
  required F_user_id uuid_validator kw_user_id = Raised eu ->
  CalculationCreate_new kw_type kw_inputs kw_user_id
  = Raised (map Inherited (errors_of (field_type kw_type)
                           ++ errors_of (field_inputs kw_inputs)) ++ eu)
  /\ (eu = [FieldMissing F_user_id] \/ eu = [FieldInvalid F_user_id])
  /\ forall k, ~ In (Inherited (LocModel, k))
                   (field_errors_of (CalculationCreate_new kw_type kw_inputs kw_user_id)).
Proof.
  intros Hu.
  assert (Heu : eu = [FieldMissing F_user_id] \/ eu = [FieldInvalid F_user_id]).
  { unfold required in Hu. destruct kw_user_id as [v|].
    - destruct (uuid_validator v); [discriminate|]. inversion Hu. now right.
    - inversion Hu. now left. }
  assert (E : CalculationCreate_new kw_type kw_inputs kw_user_id
              = Raised (map Inherited (errors_of (field_type kw_type)
                                       ++ errors_of (field_inputs kw_inputs)) ++ eu)).
  { unfold Schemas.CalculationCreate_new, inherited. rewrite Hu, map_app.
    destruct (field_type kw_type); destruct (field_inputs kw_inputs);
      cbn [field_errors_of errors_of map app]; rewrite ?app_nil_r, <- ?app_assoc;
      reflexivity. }
  split; [exact E|]. split; [exact Heu|].
  intros k. rewrite E. cbn [field_errors_of]. intros Hin.
  apply in_app_or in Hin as [Hin|Hin].
  - apply in_map_iff in Hin as [e [He Hin]]. inversion He; subst e.
    now apply (field_errors_not_model float_validator _ _ _ Hin).
  - destruct Heu as [-> | ->]; destruct Hin as [H|[]]; discriminate.
Qed.

Lemma CalculationResponse_new_returned kw_type kw_inputs kw_id kw_user_id
    kw_created_at kw_updated_at kw_result (r : CalculationResponse UUID datetime) :
  CalculationResponse_new kw_type kw_inputs kw_id kw_user_id
    kw_created_at kw_updated_at kw_result = Returned r <->
  (field_type kw_type = Returned (type r)
   /\ field_inputs kw_inputs = Returned (inputs r)
   /\ semantic (type r) (inputs r) = true)
  /\ required F_id uuid_validator kw_id = Returned (resp_id UUID datetime r)
  /\ required F_user_id uuid_validator kw_user_id = Returned (resp_user_id UUID datetime r)
  /\ required F_created_at datetime_validator kw_created_at
     = Returned (created_at UUID datetime r)
  /\ required F_updated_at datetime_validator kw_updated_at
     = Returned (updated_at UUID datetime r)
  /\ required F_result float_validator kw_result = Returned (result UUID datetime r).
Proof.
  unfold Schemas.CalculationResponse_new, inherited.
  destruct r as [[t' xs'] i' u' c' d' r']. cbn [response_base resp_id resp_user_id
    created_at updated_at result type inputs].
  destruct (field_type kw_type) as [t|es1];
    [destruct (field_inputs kw_inputs) as [xs|es2] eqn:Fi|].
  - rewrite (validate_inputs_after_fields _ _ _ t Fi).
    destruct (required F_id uuid_validator kw_id);
    destruct (required F_user_id uuid_validator kw_user_id);
    destruct (required F_created_at datetime_validator kw_created_at);
    destruct (required F_updated_at datetime_validator kw_updated_at);
    destruct (required F_result float_validator kw_result);
    try (split; [discriminate | intros [_ [? [? [? [? ?]]]]]; discriminate]).
    destruct (semantic t xs) eqn:S.
    + split.
      * intros H. inversion H. subst. rewrite S. repeat split.
      * intros [[Ht [Hx _]] [? [? [? [? ?]]]]]. congruence.
    + split; [discriminate|]. intros [[Ht [Hx S']] _]. congruence.
  - split; [|intros [[_ [H _]] _]; discriminate].
    destruct (required F_id uuid_validator kw_id);
    destruct (required F_user_id uuid_validator kw_user_id);
    destruct (required F_created_at datetime_validator kw_created_at);
    destruct (required F_updated_at datetime_validator kw_updated_at);
    destruct (required F_result float_validator kw_result); discriminate.
  - split; [|intros [[H _] _]; discriminate].
    destruct (field_inputs kw_inputs);
    destruct (required F_id uuid_validator kw_id);
    destruct (required F_user_id uuid_validator kw_user_id);
    destruct (required F_created_at datetime_validator kw_created_at);
    destruct (required F_updated_at datetime_validator kw_updated_at);
    destruct (required F_result float_validator kw_result); discriminate.
Qed.

(** X8. [CalculationResponse] validates exactly when [CalculationBase]
    validates on the same type and inputs and each of [id], [user_id],
    [created_at], [updated_at] and [result] is given and is of its type; the
    model it returns holds what the base returns. *)
Theorem response_is_base_with_record_fields
    (kw_type kw_inputs kw_id kw_user_id kw_created_at kw_updated_at kw_result
       : option pyval)
    (r : CalculationResponse UUID datetime) :
  CalculationResponse_new kw_type kw_inputs kw_id kw_user_id
    kw_created_at kw_updated_at kw_result = Returned r <->
  CalculationBase_new kw_type kw_inputs = Returned (response_base UUID datetime r)
  /\ (exists v, kw_id = Some v /\ uuid_validator v = Some (resp_id UUID datetime r))
  /\ (exists v, kw_user_id = Some v
                /\ uuid_validator v = Some (resp_user_id UUID datetime r))
  /\ (exists v, kw_created_at = Some v
                /\ datetime_validator v = Some (created_at UUID datetime r))
  /\ (exists v, kw_updated_at = Some v
                /\ datetime_validator v = Some (updated_at UUID datetime r))
  /\ (exists v, kw_result = Some v
                /\ float_validator v = Some (result UUID datetime r)).
Proof.
  rewrite CalculationResponse_new_returned, CalculationBase_new_returned.
  rewrite <- (required_returned F_id), <- (required_returned F_user_id),
    <- (required_returned F_created_at), <- (required_returned F_updated_at),
    <- (required_returned F_result).
  reflexivity.
Qed.

(** X9. What [CalculationUpdate] lets through, the other schemas refuse:
    with type division and a list of two numbers or more that has a zero
    after the first, the update validates, while no [CalculationCreate] and
    no [CalculationResponse] can be built from that type and those inputs,
    whatever their other fields. *)
Theorem zero_division_update_cannot_be_read_back (l : list pyval) (xs : list float) :
  numbers float_validator l = Some xs ->
  2 <= List.length l ->
  existsb is_zero (tl xs) = true ->
  CalculationUpdate_new (Some (PyStr "division")) (Some (PyList l))
  = Returned (mkUpdate (Some DIVISION) (Some xs))
  /\ (forall kw_user_id c,
        CalculationCreate_new (Some (PyStr "division")) (Some (PyList l)) kw_user_id
        <> Returned c)
  /\ (forall kw_id kw_user_id kw_created_at kw_updated_at kw_result r,
        CalculationResponse_new (Some (PyStr "division")) (Some (PyList l))
          kw_id kw_user_id kw_created_at kw_updated_at kw_result
        <> Returned r).
Proof.
  intros Hn Hlen Hz.
  pose proof (field_inputs_numbers float_validator _ _ Hn) as Hi.
  apply Nat.ltb_ge in Hlen. rewrite Hlen in Hi.
  assert (Hbase : forall m,
            CalculationBase_new (Some (PyStr "division")) (Some (PyList l)) <> Returned m).
  { intros m H. apply CalculationBase_new_returned in H as [Ht [Hx S]].
    change (field_type (Some (PyStr "division"))) with
      (Returned (E := ValidationError) DIVISION) in Ht.
    inversion Ht as [Ht']. rewrite Hi in Hx. inversion Hx as [Hx'].
    unfold semantic in S. rewrite <- Ht', <- Hx', Hz in S. discriminate S. }
  split; [|split].
  - unfold Schemas.CalculationUpdate_new.
    rewrite (update_field_inputs_numbers float_validator _ _ Hn), Hlen.
    change (update_field_type (Some (PyStr "division"))) with
      (Returned (E := ValidationError) (Some DIVISION)).
    unfold update_validate_inputs. cbn [upd_inputs].
    now rewrite (numbers_length float_validator _ _ Hn), Hlen.
  - intros kw_user_id c H.
    unfold Schemas.CalculationCreate_new, inherited in H.
    change (field_type (Some (PyStr "division"))) with
      (Returned (E := ValidationError) DIVISION) in H.
    rewrite Hi in H.
    rewrite (validate_inputs_after_fields float_validator _ _ DIVISION Hi) in H.
    unfold semantic in H. rewrite Hz in H. cbn [CalculationType_eqb andb negb] in H.
    destruct (required F_user_id uuid_validator kw_user_id); discriminate H.
  - intros kw_id kw_user_id kw_created_at kw_updated_at kw_result r H.
    apply CalculationResponse_new_returned in H as [Hb _].
    apply (Hbase (response_base UUID datetime r)).
    now apply CalculationBase_new_returned.
Qed.

End Derived.

End SchemasInvariants.

(** ** What every engine call does *)

Module FinancialInvariants.

Import Financial Spec PyFacts FinancialFacts.

Lemma lstrip_app s w :
  lstrip (s ++ w)%string = if blank s then lstrip w else (lstrip s ++ w)%string.
Proof.
  induction s as [|c s IH]; cbn [append lstrip blank]; [reflexivity|].
  destruct (isspace c); cbn [andb]; [exact IH|reflexivity].
Qed.

(** Whitespace added at both ends does not change what [strip] gives. *)
Lemma strip_padded ws1 s ws2 :
  blank ws1 = true -> blank ws2 = true ->
  strip (ws1 ++ s ++ ws2)%string = strip s.
Proof.
  intros B1 B2. unfold strip. rewrite (lstrip_blank _ _ B1), lstrip_app.
  destruct (blank s) eqn:Bs.
  - now rewrite (lstrip_all_blank _ B2), (lstrip_all_blank _ Bs).
  - now apply rstrip_app_blank.
Qed.

Lemma argv_app a b :
  argv (a ++ b) =
    match argv a, argv b with
    | Some x, Some y => Some (x ++ y)
    | _, _ => None
    end.
Proof.
  induction a as [|v a IH]; cbn [app argv].
  - now destruct (argv b).
  - destruct v; try reflexivity. rewrite IH.
    destruct (argv a); [|reflexivity]. now destruct (argv b).
Qed.

Lemma argv_none_iff c :
  argv c = None <-> exists v, In v c /\ forall s, v <> PyStr s.
Proof.
  induction c as [|v c IH]; cbn [argv].
  - split; [discriminate|]. intros [v [[] _]].
  - destruct v;
      try (split; [intros _; eexists; split; [left; reflexivity|discriminate] | reflexivity]).
    destruct (argv c) as [ss|].
    + split; [discriminate|]. intros [v [[<-|Hin] Hv]].
      * exfalso. now apply (Hv s).
      * destruct IH as [_ IH]. discriminate IH. eauto.
    + split; [|reflexivity]. intros _. destruct IH as [IH _].
      destruct (IH eq_refl) as [v [Hin Hv]]. exists v. split; [now right|exact Hv].
Qed.

Lemma argv_strings ss : argv (map PyStr ss) = Some ss.
Proof.
  induction ss as [|s ss IH]; cbn [map argv]; [reflexivity|]. now rewrite IH.
Qed.

Lemma comma_free_with_comma a r : comma_free (a ++ "," ++ r)%string = false.
Proof.
  induction a as [|c a IH]; [reflexivity|].
  change ((String c a ++ "," ++ r)%string) with (String c (a ++ "," ++ r)%string).
  cbn [comma_free]. rewrite IH. apply andb_false_r.
Qed.

Lemma split_at_comma a b r1 r2 :
  comma_free a = true -> comma_free b = true ->
  (a ++ "," ++ r1)%string = (b ++ "," ++ r2)%string ->
  a = b /\ r1 = r2.
Proof.
  revert b. induction a as [|c a IH]; intros [|d b] Ha Hb E; cbn [append] in E.
  - inversion E. now split.
  - inversion E; subst d. cbn [comma_free] in Hb. rewrite Ascii.eqb_refl in Hb. discriminate.
  - inversion E; subst c. cbn [comma_free] in Ha. rewrite Ascii.eqb_refl in Ha. discriminate.
  - inversion E; subst d. cbn [comma_free] in Ha, Hb.
    apply andb_prop in Ha as [_ Ha]. apply andb_prop in Hb as [_ Hb].
    destruct (IH b Ha Hb H1) as [-> ->]. now split.
Qed.

(** Joining with commas loses nothing when no part is empty or has a comma. *)
Lemma join_comma_injective ps : forall qs,
  Forall (fun s => comma_free s = true /\ s <> EmptyString) ps ->
  Forall (fun s => comma_free s = true /\ s <> EmptyString) qs ->
  join "," ps = join "," qs -> ps = qs.
Proof.
  unfold join.
  induction ps as [|a ps IH]; intros qs Hp Hq E.
  - destruct qs as [|b [|q qs]]; [reflexivity| |]; exfalso;
      inversion Hq as [|? ? [_ Hb] _]; subst; cbn [concat] in E.
    + now apply Hb.
    + destruct b; [now apply Hb|discriminate E].
  - inversion Hp as [|? ? [Ha Ha'] Hp']; subst.
    destruct qs as [|b qs].
    + exfalso. destruct ps; cbn [concat] in E.
      * now apply Ha'.
      * destruct a; [now apply Ha'|discriminate E].
    + inversion Hq as [|? ? [Hb Hb'] Hq']; subst.
      destruct ps as [|p ps], qs as [|q qs]; cbn [concat] in E.
      * now subst.
      * exfalso. rewrite E, comma_free_with_comma in Ha. discriminate.
      * exfalso. rewrite <- E, comma_free_with_comma in Hb. discriminate.
      * destruct (split_at_comma _ _ _ _ Ha Hb E) as [-> E'].
        f_equal. now apply IH.
Qed.

Section Engine.

Variable environ : string -> option string.
Variable float_of_str : string -> option float.
Variable str : pyval -> string.

Local Abbreviation cmd := (cmd environ).
Local Abbreviation run_fsharp_cmd := (run_fsharp_cmd environ float_of_str).
Local Abbreviation engine_failure := (engine_failure environ float_of_str).
Local Abbreviation engine_answer := (engine_answer environ float_of_str).

(** The command is a fixed prefix of strings followed by the arguments. *)
Lemma cmd_prefix os :
  exists prefix, forall args, cmd os args = map PyStr prefix ++ args.
Proof.
  unfold Financial.cmd.
  destruct (negb (path_exists os (FSHARP_EXEC environ)) && found (which os "dotnet")).
  - now exists ["dotnet"; "run"; "--project"; "./calculations/FinanceCore.fsproj"; "--"].
  - now exists [FSHARP_EXEC environ].
Qed.

Lemma argv_cmd_none os args : argv (cmd os args) = None <-> argv args = None.
Proof.
  destruct (cmd_prefix os) as [prefix ->]. rewrite argv_app, argv_strings.
  now destruct (argv args).
Qed.

(** X10. [run_fsharp_cmd] raises exactly when its argument is not a list:
    the error is then the [TypeError] of the list concatenation, raised
    before the [try], and nothing was run or printed. *)
Theorem raises_exactly_without_a_list (os : os_state) (args : pyval) :
  (forall e, fst (run_fsharp_cmd os args) = Raised e
             <-> e = TypeError /\ forall l, args <> PyList l)
  /\ ((forall l, args <> PyList l) -> snd (run_fsharp_cmd os args) = []).
Proof.
  destruct args;
    try (split; [intros e; split;
                   [intros H; inversion H; split; [reflexivity|discriminate]
                   |intros [-> _]; reflexivity]
                | reflexivity]).
  destruct (run_fsharp_cmd_returns environ float_of_str os l) as [events ->].
  split.
  - intros e. split; [discriminate|]. intros [_ H]. now destruct (H l).
  - intros H. now destruct (H l).
Qed.

(** X11. A call with a list of arguments ends in one of two ways: the engine
    answered, the answer is returned and nothing is printed; or the call
    failed in one of the five ways of [engine_failure], 0.0 is returned and
    that error is printed. *)
Theorem call_answers_or_fails (os : os_state) (args : list pyval) :
  (exists v, engine_answer os args = Some v
             /\ run_fsharp_cmd os (PyList args) = (Returned v, [Spawn (cmd os args)]))
  \/ (exists e, engine_failure os args e
                /\ run_fsharp_cmd os (PyList args)
                   = (Returned 0%float, [Spawn (cmd os args); Print e])).
Proof.
  unfold Financial.run_fsharp_cmd, Spec.engine_answer, subprocess_run.
  destruct (argv (cmd os args)) as [ss|] eqn:A.
  - destruct (run_process os ss) as [| |rc out] eqn:R.
    + right. exists OSError. split; [|reflexivity]. now apply CannotSpawn with ss.
    + right. exists UnicodeDecodeError. split; [|reflexivity]. now apply NotText with ss.
    + destruct (Z.eqb_spec rc 0) as [->|Hrc].
      * destruct (float_of_str (strip out)) as [v|] eqn:P.
        -- left. exists v. now split.
        -- right. exists (ValueError (strip out)). split; [|reflexivity].
           now apply NotANumber with ss.
      * right. exists (CalledProcessError rc). split; [|reflexivity].
        now apply NonZeroExit with ss out.
  - right. exists TypeError. split; [|reflexivity]. now apply BadArgument.
Qed.

(** X12. Whitespace around the engine's output changes nothing: on a
    machine whose engine writes whitespace before and after what it wrote,
    every call returns and prints what it did on the machine itself. *)
Theorem surrounding_whitespace_is_ignored (ws1 ws2 : string) (os : os_state)
    (args : pyval) :
  blank ws1 = true -> blank ws2 = true ->
  run_fsharp_cmd (padded ws1 ws2 os) args = run_fsharp_cmd os args.
Proof.
  intros B1 B2. destruct args; try reflexivity.
  unfold Financial.run_fsharp_cmd, subprocess_run.
  change (cmd (padded ws1 ws2 os) l) with (cmd os l).
  destruct (argv (cmd os l)) as [ss|]; [|reflexivity].
  cbn [padded run_process].
  destruct (run_process os ss) as [| |rc out]; cbn [pad_output]; try reflexivity.
  destruct (Z.eqb rc 0); [|reflexivity].
  now rewrite (strip_padded _ _ _ B1 B2).
Qed.

Lemma run_on_bad_argument os args :
  argv args = None ->
  run_fsharp_cmd os (PyList args)
  = (Returned 0%float, [Spawn (cmd os args); Print TypeError]).
Proof.
  intros H. unfold Financial.run_fsharp_cmd, subprocess_run.
  apply (argv_cmd_none os) in H. now rewrite H.
Qed.

(** With string arguments the process is consulted, and whatever comes of
    it, no [TypeError] is printed. *)
Lemma run_on_strings os ss :
  ~ In (Print TypeError) (snd (run_fsharp_cmd os (PyList (map PyStr ss)))).
Proof.
  unfold Financial.run_fsharp_cmd, subprocess_run.
  destruct (cmd_prefix os) as [prefix Hc].
  rewrite Hc, <- map_app, argv_strings.
  destruct (run_process os (prefix ++ ss)) as [| |rc out]; cbn [snd In];
    try (intros [H|[H|[]]]; discriminate).
  destruct (Z.eqb rc 0); [destruct (float_of_str (strip out))|]; cbn [snd In];
    intros H; repeat (destruct H as [H|H]; try discriminate); exact H.
Qed.

(** X13. [run_fsharp_cmd] ends on a [TypeError], printing it and returning
    0.0, exactly when one of its arguments is not a string; the calls of
    [calculate_bond], [calculate_wacc] and [calculate_npv], whose vectors
    hold strings only, never print one. *)
Theorem type_error_iff_non_string_argument (os : os_state) (args : list pyval) :
  (run_fsharp_cmd os (PyList args)
     = (Returned 0%float, [Spawn (cmd os args); Print TypeError])
   <-> exists v, In v args /\ forall s, v <> PyStr s)
  /\ (forall face coupon market years freq,
        ~ In (Print TypeError)
             (snd (calculate_bond environ float_of_str str os
                     face coupon market years freq)))
  /\ (forall equity debt cost_e cost_d tax,
        ~ In (Print TypeError)
             (snd (calculate_wacc environ float_of_str str os
                     equity debt cost_e cost_d tax)))
  /\ (forall rate flows,
        ~ In (Print TypeError)
             (snd (calculate_npv environ float_of_str str os rate flows))).
Proof.
  split; [|split; [|split]].
  - rewrite <- argv_none_iff. split.
    + intros H. destruct (argv args) as [ss|] eqn:A; [|reflexivity]. exfalso.
      assert (Hs : args = map PyStr ss).
      { clear H. revert ss A. induction args as [|v args IH]; intros ss A.
        - cbn in A. now inversion A.
        - cbn [argv] in A. destruct v; try discriminate.
          destruct (argv args) as [ss'|]; [|discriminate].
          inversion A. cbn [map]. now rewrite <- (IH ss' eq_refl). }
      apply (run_on_strings os ss). rewrite <- Hs, H. cbn. tauto.
    + apply run_on_bad_argument.
  - intros. unfold calculate_bond.
    apply (run_on_strings os [_; _; _; _; _; _]).
  - intros. unfold calculate_wacc.
    apply (run_on_strings os [_; _; _; _; _; _]).
  - intros. unfold calculate_npv. destruct (iterate flows) as [items|].
    + apply (run_on_strings os [_; _; _]).
    + intros [].
Qed.

Lemma calculate_option_bad_kind os spot strike time rate vol kind :
  (forall k, kind <> PyStr k) ->
  calculate_option environ float_of_str str os spot strike time rate vol kind
  = (Returned 0%float,
     [Spawn (cmd os (map PyStr ["option"; str spot; str strike; str time;
                                str rate; str vol] ++ [kind]));
      Print TypeError]).
Proof.
  intros Hk. unfold calculate_option. apply run_on_bad_argument.
  apply argv_none_iff. exists kind. split; [|exact Hk]. cbn. tauto.
Qed.

(** X14. [calculate_option] with a [kind] that is not a string returns 0.0
    on every machine: the call fails on the argument before any process is
    run. *)
Theorem option_kind_must_be_a_string (os : os_state)
    (spot strike time rate vol kind : pyval) :
  (forall k, kind <> PyStr k) ->
  calculate_option environ float_of_str str os spot strike time rate vol kind
  = (Returned 0%float,
     [Spawn (cmd os (map PyStr ["option"; str spot; str strike; str time;
                                str rate; str vol] ++ [kind]));
      Print TypeError]).
Proof. apply calculate_option_bad_kind. Qed.

(** C4, as the code has it.  [calculate_bond] and [calculate_wacc] run the
    chosen command on the tag followed by [str] of each argument, [freq]
    being 2 when not passed.  [calculate_option] applies [str] to its five
    numbers and hands [kind] on as it came: with a string [kind] the vector
    ends in that string; with any other [kind] no process is run and 0.0 is
    returned.  [calculate_npv] joins [str] of the items of [flows] with
    commas into one argument; when [flows] cannot be iterated it raises
    [TypeError].  A vector of strings reaches the process as it is, after
    the strings of the chosen command. *)
Theorem builders_protocol_vectors (os : os_state) :
  (forall face coupon market years freq,
     spawned (calculate_bond environ float_of_str str os face coupon market years freq)
     = Some (cmd os (map PyStr
         ["bond"; str face; str coupon; str market; str years;
          str (match freq with Some f => f | None => PyInt 2 end)])))
  /\ (forall equity debt cost_e cost_d tax,
     spawned (calculate_wacc environ float_of_str str os equity debt cost_e cost_d tax)
     = Some (cmd os (map PyStr
         ["wacc"; str equity; str debt; str cost_e; str cost_d; str tax])))
  /\ (forall spot strike time rate vol k,
     spawned (calculate_option environ float_of_str str os spot strike time rate vol (PyStr k))
     = Some (cmd os (map PyStr
         ["option"; str spot; str strike; str time; str rate; str vol; k])))
  /\ (forall spot strike time rate vol kind,
     (forall k, kind <> PyStr k) ->
     calculate_option environ float_of_str str os spot strike time rate vol kind
     = (Returned 0%float,
        [Spawn (cmd os (map PyStr ["option"; str spot; str strike; str time;
                                   str rate; str vol] ++ [kind]));
         Print TypeError]))
  /\ (forall rate flows items,
     iterate flows = Some items ->
     spawned (calculate_npv environ float_of_str str os rate flows)
     = Some (cmd os (map PyStr ["npv"; str rate; join "," (map str items)])))
  /\ (forall rate flows,
     iterate flows = None ->
     calculate_npv environ float_of_str str os rate flows = (Raised TypeError, []))
  /\ (exists prefix, forall ss,
     argv (cmd os (map PyStr ss)) = Some (prefix ++ ss)).
Proof.
  destruct (builders_commands environ float_of_str str os) as [Hb [Hw [Ho Hn]]].
  repeat split.
  - exact Hb.
  - exact Hw.
  - intros. apply Ho.
  - intros. now apply calculate_option_bad_kind.
  - exact Hn.
  - intros rate flows H. unfold calculate_npv. now rewrite H.
  - destruct (cmd_prefix os) as [prefix Hc]. exists prefix. intros ss.
    now rewrite Hc, <- map_app, argv_strings.
Qed.

(** X15. The cash flows can be read back from what [calculate_npv] runs:
    when no flow prints as the empty string or with a comma in it, two calls
    that run the same command were given flows that print alike, one by one. *)
Theorem npv_flows_are_recoverable (os : os_state) (rate : pyval)
    (flows1 flows2 : pyval) (fs gs : list pyval) :
  iterate flows1 = Some fs ->
  iterate flows2 = Some gs ->
  (forall f, In f (fs ++ gs) -> comma_free (str f) = true /\ str f <> EmptyString) ->
  spawned (calculate_npv environ float_of_str str os rate flows1)
  = spawned (calculate_npv environ float_of_str str os rate flows2) ->
  map str fs = map str gs.
Proof.
  intros H1 H2 Hok. unfold calculate_npv. rewrite H1, H2.
  destruct (run_fsharp_cmd_returns environ float_of_str os
              [PyStr "npv"; PyStr (str rate); PyStr (join "," (map str fs))])
    as [ev1 ->].
  destruct (run_fsharp_cmd_returns environ float_of_str os
              [PyStr "npv"; PyStr (str rate); PyStr (join "," (map str gs))])
    as [ev2 ->].
  cbn [spawned snd]. destruct (cmd_prefix os) as [prefix Hc]. rewrite !Hc.
  intros E. inversion E as [E']. apply app_inv_head in E'. inversion E' as [J].
  apply join_comma_injective; [| |exact J]; apply Forall_forall; intros s Hin;
    apply in_map_iff in Hin as [f [<- Hin]]; apply Hok, in_or_app; tauto.
Qed.

End Engine.

End FinancialInvariants.

(** *** The invariants on concrete payloads and machines *)

Module InvariantsExamples.

Import Schemas Spec Financial SchemasInvariants FinancialInvariants.

Local Abbreviation division_by_zero_payload := [PyInt 10; PyInt 0].

(** The subclasses on the cases of [tests/unit/test_calculation.py]. *)
Example create_requires_user_id :
  CalculationCreate_new number_validator Z int_validator
    (Some (PyStr "addition")) (Some (PyList [PyInt 1; PyInt 2])) (Some (PyInt 7))
  = Returned (mkCreate Z (mkBase ADDITION [1; 2]%float) 7%Z).
Proof. vm_compute. reflexivity. Qed.

Example create_missing_user_id :
  CalculationCreate_new number_validator Z int_validator
    (Some (PyStr "addition")) (Some (PyList [PyInt 1; PyInt 2])) None
  = Raised [FieldMissing F_user_id].
Proof. vm_compute. reflexivity. Qed.

Example response_serialization :
  CalculationResponse_new number_validator Z int_validator Z int_validator
    (Some (PyStr "addition")) (Some (PyList [PyInt 10; PyInt 5]))
    (Some (PyInt 1)) (Some (PyInt 2)) (Some (PyInt 3)) (Some (PyInt 4))
    (Some (PyFloat 15))
  = Returned (mkResponse Z Z (mkBase ADDITION [10; 5]%float) 1%Z 2%Z 3%Z 4%Z 15%float).
Proof. vm_compute. reflexivity. Qed.

(** [validated_base_invariant] at [type="division", inputs=[100, 2]]. *)
Lemma validated_base_invariant_witness :
  2 <= List.length [100; 2]%float
  /\ (DIVISION = DIVISION -> Forall (fun x => is_zero x = false) [2]%float)
  /\ validate_inputs (mkBase DIVISION [100; 2]%float) = Returned (mkBase DIVISION [100; 2]%float).
Proof.
  exact (validated_base_invariant number_validator
           (Some (PyStr "Division")) (Some (PyList [PyInt 100; PyInt 2]))
           (mkBase DIVISION [100; 2]%float) eq_refl).
Defined.

(** [revalidation_round_trip] at [type="ADDITION", inputs=[1, 2.5]]. *)
Lemma revalidation_round_trip_witness :
  CalculationBase_new number_validator
    (Some (PyStr "addition")) (Some (PyList [PyFloat 1; PyFloat 2.5]))
  = Returned (mkBase ADDITION [1; 2.5]%float).
Proof.
  exact (revalidation_round_trip number_validator
           (Some (PyStr "ADDITION")) (Some (PyList [PyInt 1; PyFloat 2.5]))
           (mkBase ADDITION [1; 2.5]%float) (fun f => eq_refl) eq_refl).
Defined.

(** [bad_user_id_hides_model_errors] at a division by zero with no
    [user_id]: only the missing field is reported. *)
Lemma bad_user_id_hides_model_errors_witness :
  CalculationCreate_new number_validator Z int_validator
    (Some (PyStr "division")) (Some (PyList division_by_zero_payload)) None
  = Raised [FieldMissing F_user_id].
Proof.
  exact (proj1 (bad_user_id_hides_model_errors number_validator Z int_validator
                  (Some (PyStr "division")) (Some (PyList division_by_zero_payload))
                  None [FieldMissing F_user_id] eq_refl)).
Defined.

(** [zero_division_update_cannot_be_read_back] at [inputs=[10, 0]]. *)
Lemma zero_division_update_cannot_be_read_back_witness :
  CalculationUpdate_new number_validator
    (Some (PyStr "division")) (Some (PyList division_by_zero_payload))
  = Returned (mkUpdate (Some DIVISION) (Some [10; 0]%float)).
Proof.
  exact (proj1 (zero_division_update_cannot_be_read_back number_validator
                  Z int_validator Z int_validator
                  division_by_zero_payload [10; 0]%float eq_refl (le_n 2) eq_refl)).
Defined.

(** [surrounding_whitespace_is_ignored] on an engine that prints 42. *)
Lemma surrounding_whitespace_is_ignored_witness :
  run_fsharp_cmd no_environ float_of_digits
    (padded "  " newline (built_machine "42")) (PyList [PyStr "bond"])
  = (Returned 42%float, [Spawn [PyStr default_exec; PyStr "bond"]]).
Proof.
  exact (surrounding_whitespace_is_ignored no_environ float_of_digits
           "  " newline (built_machine "42") (PyList [PyStr "bond"]) eq_refl eq_refl).
Defined.

(** [option_kind_must_be_a_string] at [kind=None], on a machine whose
    engine would answer. *)
Lemma option_kind_must_be_a_string_witness :
  fst (calculate_option no_environ float_of_digits str_of_int (built_machine "7")
         (PyInt 100) (PyInt 100) (PyInt 1) (PyInt 0) (PyInt 1) PyNone)
  = Returned 0%float.
Proof.
  exact (f_equal fst
           (option_kind_must_be_a_string no_environ float_of_digits str_of_int
              (built_machine "7") (PyInt 100) (PyInt 100) (PyInt 1) (PyInt 0) (PyInt 1)
              PyNone (fun k H => eq_ind PyNone
                                   (fun v => match v with PyNone => True | _ => False end)
                                   I (PyStr k) H))).
Defined.

(** [npv_flows_are_recoverable] at flows given as numbers and as text. *)
Lemma npv_flows_are_recoverable_witness :
  map str_of_int [PyInt (-1000); PyStr "500"] = map str_of_int [PyStr "-1000"; PyInt 500].
Proof.
  apply (npv_flows_are_recoverable no_environ float_of_digits str_of_int
           bare_machine (PyInt 0)
           (PyList [PyInt (-1000); PyStr "500"]) (PyList [PyStr "-1000"; PyInt 500])).
  - reflexivity.
  - reflexivity.
  - intros f Hin. cbn [app In] in Hin.
    destruct Hin as [<-|[<-|[<-|[<-|[]]]]]; split; (reflexivity || discriminate).
  - reflexivity.
Defined.

(** C4 as the specification words it fails at [kind=3]: the vector handed
    over ends in the number 3, not in its text, and the call returns 0.0 on a
    machine whose engine would have answered 7. *)
Lemma kind_is_not_stringified :
  calculate_option no_environ float_of_digits str_of_int (built_machine "7")
    (PyInt 100) (PyInt 100) (PyInt 1) (PyInt 0) (PyInt 1) (PyInt 3)
  = (Returned 0%float,
     [Spawn (map PyStr [default_exec; "option"; "100"; "100"; "1"; "0"; "1"] ++ [PyInt 3]);
      Print TypeError])
  /\ ~ option_values_are_stringified no_environ float_of_digits str_of_int
        (built_machine "7") (PyInt 100) (PyInt 100) (PyInt 1) (PyInt 0) (PyInt 1) (PyInt 3).
Proof.
  split; [vm_compute; reflexivity|].
  unfold option_values_are_stringified. intros H. vm_compute in H. discriminate H.
Qed.

(** Flows that cannot be iterated: the error reaches the caller. *)
Example npv_flows_not_iterable :
  calculate_npv no_environ float_of_digits str_of_int (built_machine "7")
    (PyInt 0) (PyInt 5)
  = (Raised TypeError, []).
Proof. reflexivity. Qed.

End InvariantsExamples.
